(** * Admin dashboard: cache layer, paginated fetchers, activity feed

    A shallow embedding of
    - [src/lib/cache.ts] (the cache module, kept in the sources next to the
      Prisma re-export): the Redis-backed [cache] object, [CACHE_KEYS],
      [CACHE_TTL], [getCachedQuery], [invalidateDashboardCache];
    - [src/app/admin/_actions/activities-optimized.ts]: [withTimeout], the
      five paginated fetchers and [updateFormSubmissionStatus];
    - [src/app/api/admin/dashboard-data/route.ts]: the [GET] handler.

    Conventions.  A JS [number] that is an offset, a limit or a count is a
    [nat] (what the code does with a [NaN] offset or limit is modelled
    apart, on [number]); points in time and TTLs are [Z] (seconds for the
    cache, epoch milliseconds for row timestamps).  An [async] function is a state
    transformer on the [World]; a promise that may reject is an [outcome].
    What lives outside the repository (the Redis server, the database
    engine) is modelled next to the code that calls it and says so. *)

From Stdlib Require Import ZArith String Ascii List Bool Lia Sorted Permutation.
From stdpp Require Import base option list strings pretty gmap.

Local Open Scope string_scope.

(** ** JavaScript helpers *)

(** Truthiness, as tested by [if (x)], [x || y] and [c ? a : b]. *)
Class Truthy (T : Type) := truthy : T -> bool.

(** The primitive JSON values a cached query can produce. *)
Inductive jsval :=
| JNull
| JBool (b : bool)
| JNum (n : Z)
| JStr (s : string).

#[export] Instance jsval_truthy : Truthy jsval := fun v =>
  match v with
  | JNull => false
  | JBool b => b
  | JNum n => negb (n =? 0)%Z
  | JStr s => negb (String.eqb s EmptyString)
  end.

#[export] Instance Z_truthy : Truthy Z := fun n => negb (n =? 0)%Z.

#[export] Instance string_truthy : Truthy string := fun s => negb (String.eqb s EmptyString).

(** [T | null | undefined]: absent is falsy. *)
#[export] Instance option_truthy {T} `{Truthy T} : Truthy (option T) := fun o =>
  match o with
  | Some v => truthy v
  | None => false
  end.

(** [a || d] on a nullable string. *)
Definition orElse (a : option string) (d : string) : string :=
  if truthy a then default d a else d.

(** [String.prototype.startsWith]. *)
Fixpoint startsWith (s p : string) : bool :=
  match p with
  | EmptyString => true
  | String c p' =>
      match s with
      | EmptyString => false
      | String d s' => Ascii.eqb c d && startsWith s' p'
      end
  end.

(** [String.prototype.includes]. *)
Fixpoint includes (s p : string) : bool :=
  startsWith s p ||
  match s with
  | EmptyString => false
  | String _ s' => includes s' p
  end.

(** White space removed by [String.prototype.trim], ASCII part: tab, line
    feed, vertical tab, form feed, carriage return, space. *)
Definition isSpace (c : ascii) : bool :=
  let n := nat_of_ascii c in
  (Nat.leb 9 n && Nat.leb n 13) || Nat.eqb n 32.

Fixpoint trimStart (s : string) : string :=
  match s with
  | EmptyString => EmptyString
  | String c s' => if isSpace c then trimStart s' else s
  end.

Fixpoint trimEnd (s : string) : string :=
  match s with
  | EmptyString => EmptyString
  | String c s' =>
      match trimEnd s' with
      | EmptyString => if isSpace c then EmptyString else String c EmptyString
      | t => String c t
      end
  end.

Definition trim (s : string) : string := trimEnd (trimStart s).

(** [Array.prototype.slice(start, end)] for [0 <= start], [0 <= end]. *)
Definition slice {A} (start end_ : nat) (l : list A) : list A :=
  take (end_ - start) (drop start l).

(** [Array.prototype.sort(cmp)]: the sort is stable (ECMAScript 2019); [x]
    goes behind [y] only when [cmp x y > 0]. *)
Fixpoint sortInsert {A} (cmp : A -> A -> Z) (x : A) (l : list A) : list A :=
  match l with
  | [] => [x]
  | y :: l' => if (cmp x y <=? 0)%Z then x :: l else y :: sortInsert cmp x l'
  end.

Definition sort {A} (cmp : A -> A -> Z) (l : list A) : list A :=
  foldr (sortInsert cmp) [] l.

(** A settled promise. *)
Inductive outcome (A : Type) :=
| Fulfilled (a : A)
| Rejected (reason : string).
Arguments Fulfilled {A} a.
Arguments Rejected {A} reason.

Definition isFulfilled {A} (o : outcome A) : bool :=
  match o with
  | Fulfilled _ => true
  | Rejected _ => false
  end.

(** [await] inside a [try]: the continuation runs on fulfilment, a rejection
    skips to the [catch]. *)
Definition andThen {A B} (o : outcome A) (k : A -> outcome B) : outcome B :=
  match o with
  | Fulfilled a => k a
  | Rejected e => Rejected e
  end.

(** [Promise.all] on two promises: rejects as soon as one of them does. *)
Definition all2 {A B} (a : outcome A) (b : outcome B) : outcome (A * B) :=
  andThen a (fun x => andThen b (fun y => Fulfilled (x, y))).

Definition all3 {A B C} (a : outcome A) (b : outcome B) (c : outcome C)
  : outcome (A * B * C) :=
  andThen (all2 a b) (fun xy => andThen c (fun z => Fulfilled (xy, z))).

(** [try { body } catch (error) { return fallback }]. *)
Definition tryCatch {A} (body : outcome A) (fallback : A) : A :=
  match body with
  | Fulfilled a => a
  | Rejected _ => fallback
  end.

(** ** The Redis server (outside the repository)

    What the Upstash client's [get], [set], [setex], [keys] and [del] do, as
    far as [cache] relies on it.  An entry carries the instant at which it
    expires; expiry is lazy, an expired entry is invisible to every
    command.  The server answers every command it is sent, and the JSON text
    written by [cache.set] is taken to read back as the value it was made
    from. *)

Record Entry (V : Type) := mkEntry { payload : V; expiresAt : option Z }.
Arguments mkEntry {V} payload expiresAt.
Arguments payload {V} e.
Arguments expiresAt {V} e.

Definition live {V} (now : Z) (e : Entry V) : bool :=
  match expiresAt e with
  | Some t => (now <? t)%Z
  | None => true
  end.

(** Glob matching of KEYS: [*] matches any run of characters, [?] one
    character, anything else itself.  (Bracket classes and backslash escapes
    are left out: no pattern of the repository has them.) *)
Fixpoint globMatch (p s : string) : bool :=
  match p with
  | EmptyString =>
      match s with
      | EmptyString => true
      | String _ _ => false
      end
  | String c p' =>
      if Ascii.eqb c "*" then
        (fix star (s : string) : bool :=
           globMatch p' s ||
           match s with
           | EmptyString => false
           | String _ s' => star s'
           end) s
      else
        match s with
        | EmptyString => false
        | String d s' => (Ascii.eqb c "?" || Ascii.eqb c d) && globMatch p' s'
        end
  end.

Module Redis.
Section Commands.
Context {V : Type}.
Implicit Type db : gmap string (Entry V).

(** GET key. *)
Definition GET (now : Z) db (key : string) : option V :=
  match db !! key with
  | Some e => if live now e then Some (payload e) else None
  | None => None
  end.

(** SET key value. *)
Definition SET db (key : string) (v : V) : gmap string (Entry V) :=
  <[key := mkEntry v None]> db.

(** SETEX key seconds value: an error unless [seconds] is positive. *)
Definition SETEX (now : Z) db (key : string) (seconds : Z) (v : V)
  : outcome (gmap string (Entry V)) :=
  if (0 <? seconds)%Z
  then Fulfilled (<[key := mkEntry v (Some (now + seconds)%Z)]> db)
  else Rejected "ERR invalid expire time in 'setex' command".

(** KEYS pattern. *)
Definition KEYS (now : Z) db (pattern : string) : list string :=
  (map_to_list
     (filter (fun kv => globMatch pattern kv.1 && live now kv.2 = true) db)).*1.

(** DEL key [key ...]. *)
Definition DEL db (keys : list string) : gmap string (Entry V) :=
  foldr delete db keys.

End Commands.
End Redis.

(** ** The database (outside the repository)

    The tables the dashboard reads, with the columns the fetchers select,
    and what the Prisma calls of the fetchers return on them. *)

(** [emailVerified] is a date or [null]. *)
Record User := mkUser {
  user_id : Z;
  user_email : string;
  user_firstName : option string;
  user_lastName : option string;
  user_createdAt : Z;
  user_emailVerified : option Z;
  user_role : string
}.

Record Quote := mkQuote {
  quote_id : string;
  quote_reference : string;
  quote_status : string;
  quote_total : Z;
  quote_createdAt : Z;
  quote_userId : option Z
}.

Record FormSubmission := mkFormSubmission {
  form_id : string;
  form_formType : string;
  form_status : string;
  form_submittedAt : Z
}.

Record NewsletterSubscriber := mkNewsletterSubscriber {
  sub_id : string;
  sub_email : string;
  sub_status : string;
  sub_subscribedAt : Z
}.

Record AnalyticsEvent := mkAnalyticsEvent {
  event_eventType : string;
  event_timestamp : Z
}.

Record Database := mkDatabase {
  users : list User;
  quotes : list Quote;
  formSubmissions : list FormSubmission;
  newsletterSubscribers : list NewsletterSubscriber;
  analyticsEvents : list AnalyticsEvent
}.

(** A row of the raw SQL query of the activity feed:
    [SELECT 'quote' AS type, q.id, q.reference, q.status, q.total,
     q."createdAt", q."userId", u.email, u."firstName", u."lastName"]. *)
Record QuoteRow := mkQuoteRow {
  row_id : string;
  row_reference : string;
  row_status : string;
  row_total : Z;
  row_createdAt : Z;
  row_userId : option Z;
  row_email : option string;
  row_firstName : option string;
  row_lastName : option string
}.

(** [findMany({ where, orderBy: { key: 'desc' }, skip, take })].  Rows with
    equal keys come in table order. *)
Definition findMany {R} (where_ : R -> bool) (key : R -> Z) (skip take_ : nat)
  (table : list R) : list R :=
  take take_ (drop skip (sort (fun a b => (key b - key a)%Z) (List.filter where_ table))).

(** [count({ where })]. *)
Definition count {R} (where_ : R -> bool) (table : list R) : nat :=
  length (List.filter where_ table).

Definition everyRow {R} : R -> bool := fun _ => true.

(** [FROM "Quote" q LEFT JOIN "User" u ON q."userId" = u.id]. *)
Definition joinUser (us : list User) (q : Quote) : list QuoteRow :=
  let matches :=
    List.filter (fun u => match quote_userId q with
                          | Some i => (i =? user_id u)%Z
                          | None => false
                          end) us in
  let row e f l :=
    mkQuoteRow (quote_id q) (quote_reference q) (quote_status q) (quote_total q)
               (quote_createdAt q) (quote_userId q) e f l in
  match matches with
  | [] => [row None None None]
  | _ => List.map (fun u => row (Some (user_email u)) (user_firstName u) (user_lastName u))
                  matches
  end.

(** [... ORDER BY q."createdAt" DESC LIMIT limit]. *)
Definition quoteRows (limit : nat) (db : Database) : list QuoteRow :=
  take limit
    (sort (fun a b => (row_createdAt b - row_createdAt a)%Z)
          (flat_map (joinUser (users db)) (quotes db))).

(** [formSubmission.update({ where: { id }, data: { status } })]: the updated
    record and table, or a rejection when no record has this id. *)
Fixpoint updateStatus (id status : string) (table : list FormSubmission)
  : outcome (FormSubmission * list FormSubmission) :=
  match table with
  | [] => Rejected "Record to update not found."
  | f :: table' =>
      if String.eqb (form_id f) id then
        let f' := mkFormSubmission (form_id f) (form_formType f) status (form_submittedAt f) in
        Fulfilled (f', f' :: table')
      else
        andThen (updateStatus id status table')
                (fun r => Fulfilled (r.1, f :: r.2))
  end.

(** The calls the fetchers make, and how each one fares: it answers,
    throws, or is still unanswered when the timer of [withTimeout] fires. *)
Inductive Query :=
| UserFindMany
| UserCount
| QuoteRaw
| QuoteFindMany
| QuoteCount
| FormSubmissionFindMany
| FormSubmissionCount
| FormSubmissionUpdate
| NewsletterSubscriberFindMany
| NewsletterSubscriberCount
| AnalyticsEventCount.

Inductive Fault :=
| Healthy
| Throws (reason : string)
| Hangs.

(** A promise watched through a timer: settled before it fires, or not. *)
Inductive promise (A : Type) :=
| Settled (o : outcome A)
| Pending.
Arguments Settled {A} o.
Arguments Pending {A}.

Definition issue {A} (f : Fault) (answer : outcome A) : promise A :=
  match f with
  | Healthy => Settled answer
  | Throws e => Settled (Rejected e)
  | Hangs => Pending
  end.

(** [Promise.all] on two promises still in flight: rejected as soon as one
    is, fulfilled once both are. *)
Definition bothP {A B} (a : promise A) (b : promise B) : promise (A * B) :=
  match a, b with
  | Settled (Rejected e), _ => Settled (Rejected e)
  | _, Settled (Rejected e) => Settled (Rejected e)
  | Settled (Fulfilled x), Settled (Fulfilled y) => Settled (Fulfilled (x, y))
  | _, _ => Pending
  end.

(** ** The world an [async] function runs in

    The process environment, the contents of the Redis server, the database
    and the state of its calls.  [fetches] is a ghost counter: how often
    [getCachedQuery] has awaited a fetcher.  The cache holds values of one
    type [V], the result type of the fetchers under study. *)

Record ProcessEnv := mkProcessEnv {
  UPSTASH_REDIS_REST_URL : option string;
  UPSTASH_REDIS_REST_TOKEN : option string
}.

Record World (V : Type) := mkWorld {
  env : ProcessEnv;
  server : gmap string (Entry V);
  database : Database;
  faults : Query -> Fault;
  fetches : nat
}.
Arguments mkWorld {V} env server database faults fetches.
Arguments env {V} w.
Arguments server {V} w.
Arguments database {V} w.
Arguments faults {V} w.
Arguments fetches {V} w.

Definition withServer {V} (w : World V) (db : gmap string (Entry V)) : World V :=
  mkWorld (env w) db (database w) (faults w) (fetches w).

Definition withDatabase {V} (w : World V) (d : Database) : World V :=
  mkWorld (env w) (server w) d (faults w) (fetches w).

Definition fetched {V} (w : World V) : World V :=
  mkWorld (env w) (server w) (database w) (faults w) (S (fetches w)).

(** ** [src/lib/cache.ts] *)

(** [getRedis]: the client, or [null] when the credentials are missing,
    blank, or the URL is not an https one.  The module-level variable
    [redis] only memoises this answer; the environment does not change
    while the process runs. *)
Definition getRedis {V} (w : World V) : option (gmap string (Entry V)) :=
  let url := UPSTASH_REDIS_REST_URL (env w) in
  let token := UPSTASH_REDIS_REST_TOKEN (env w) in
  if negb (truthy url) || negb (truthy token)
     || String.eqb (trim (default EmptyString url)) EmptyString
     || String.eqb (trim (default EmptyString token)) EmptyString
  then None
  else if negb (startsWith (default EmptyString url) "https://") then None
  else Some (server w).

Module cache.
Section Methods.
Context {V : Type}.

(** [cache.get(key)]. *)
Definition get (now : Z) (key : string) (w : World V) : option V * World V :=
  match getRedis w with
  | None => (None, w)
  | Some redisClient => (Redis.GET now redisClient key, w)
  end.

(** [cache.set(key, value, ttl?)]; an error of the client is logged and
    swallowed. *)
Definition set (now : Z) (key : string) (value : V) (ttl : option Z) (w : World V)
  : World V :=
  match getRedis w with
  | None => w
  | Some redisClient =>
      if truthy ttl then
        match Redis.SETEX now redisClient key (default 0%Z ttl) value with
        | Fulfilled db => withServer w db
        | Rejected _ => w
        end
      else withServer w (Redis.SET redisClient key value)
  end.

(** [cache.del(key)]. *)
Definition del (key : string) (w : World V) : World V :=
  match getRedis w with
  | None => w
  | Some redisClient => withServer w (Redis.DEL redisClient [key])
  end.

(** [cache.invalidatePattern(pattern)]. *)
Definition invalidatePattern (now : Z) (pattern : string) (w : World V) : World V :=
  match getRedis w with
  | None => w
  | Some redisClient =>
      let keys := Redis.KEYS now redisClient pattern in
      if Nat.ltb 0 (length keys)
      then withServer w (Redis.DEL redisClient keys)
      else w
  end.

End Methods.
End cache.

Module CACHE_KEYS.

Definition products (id : option string) : string :=
  if truthy id then "products:" +:+ default EmptyString id else "products:all".

Definition brands : string := "brands:all".

Definition categories : string := "categories:all".

Definition companies : string := "companies:all".

Definition user (id : string) : string := "user:" +:+ id.

Module dashboard.

Definition activities (offset limit : nat) : string :=
  "dashboard:activities:" +:+ pretty offset +:+ ":" +:+ pretty limit.

Definition stats : string := "dashboard:stats".

Definition quotes (offset limit : nat) : string :=
  "dashboard:quotes:" +:+ pretty offset +:+ ":" +:+ pretty limit.

Definition users (offset limit : nat) : string :=
  "dashboard:users:" +:+ pretty offset +:+ ":" +:+ pretty limit.

Definition newsletter (offset limit : nat) : string :=
  "dashboard:newsletter:" +:+ pretty offset +:+ ":" +:+ pretty limit.

Definition forms (offset limit : nat) : string :=
  "dashboard:forms:" +:+ pretty offset +:+ ":" +:+ pretty limit.

End dashboard.
End CACHE_KEYS.

Module CACHE_TTL.
Module dashboard.

Definition realtime : Z := 10.
Definition stats : Z := 30.

End dashboard.
End CACHE_TTL.

(** A fetcher reads the world (the database and the state of its calls);
    none of the repository writes to it. *)
Definition Fetcher (V : Type) : Type := World V -> V.

(** [getCachedQuery(key, fetcher, ttl)]. *)
Definition getCachedQuery {V} `{Truthy V} (now : Z) (key : string)
  (fetcher : Fetcher V) (ttl : Z) (w : World V) : V * World V :=
  let '(cached, w1) := cache.get now key w in
  let miss :=
    let data := fetcher w1 in
    (data, cache.set now key data (Some ttl) (fetched w1)) in
  match cached with
  | Some v => if truthy v then (v, w1) else miss
  | None => miss
  end.

(** [invalidateDashboardCache(pattern?)]. *)
Definition invalidateDashboardCache {V} (now : Z) (pattern : option string)
  (w : World V) : World V :=
  if negb (truthy pattern)
  then cache.invalidatePattern now "dashboard:*" w
  else cache.invalidatePattern now (default EmptyString pattern) w.

(** ** [src/app/admin/_actions/activities-optimized.ts] *)

Record PaginatedResult (T : Type) := mkPaginatedResult {
  data : list T;
  total : nat;
  offset : nat;
  limit : nat;
  hasMore : bool
}.
Arguments mkPaginatedResult {T} data total offset limit hasMore.
Arguments data {T} p.
Arguments total {T} p.
Arguments offset {T} p.
Arguments limit {T} p.
Arguments hasMore {T} p.

(** An object is truthy, whatever it holds. *)
#[export] Instance PaginatedResult_truthy {T} : Truthy (PaginatedResult T) :=
  fun _ => true.

Inductive ActivityType :=
| user_registration
| quote_request
| checkout
| newsletter_signup
| form_submission.

Record Actor := mkActor {
  actor_id : option string;
  actor_email : string;
  actor_name : option string
}.

Record ActivityData := mkActivityData {
  data_reference : option string;
  data_amount : option Z;
  data_items : option Z;
  data_formType : option string;
  data_status : option string;
  data_message : option string
}.

Record ActivityEvent := mkActivityEvent {
  activity_id : string;
  activity_type : ActivityType;
  activity_timestamp : Z;
  activity_actor : Actor;
  activity_data : ActivityData;
  activity_status : string
}.

(** [withTimeout(promise, timeoutMs)]: the race against the timer. *)
Definition withTimeout {A} (p : promise A) (timeoutMs : Z) : outcome A :=
  match p with
  | Settled o => o
  | Pending => Rejected ("Query timeout after " +:+ pretty timeoutMs +:+ "ms")
  end.

(** The result every [catch] of the fetchers returns. *)
Definition emptyPage {T} (offset limit : nat) : PaginatedResult T :=
  {| data := []; total := 0; offset := offset; limit := limit; hasMore := false |}.

(** The mapper of the user rows. *)
Definition userActivity (user : User) : ActivityEvent :=
  {| activity_id := "user_" +:+ pretty (user_id user);
     activity_type := user_registration;
     activity_timestamp := user_createdAt user;
     activity_actor :=
       {| actor_id := Some (pretty (user_id user));
          actor_email := user_email user;
          actor_name :=
            Some (trim (orElse (user_firstName user) EmptyString +:+ " "
                        +:+ orElse (user_lastName user) EmptyString)) |};
     activity_data :=
       {| data_reference := None; data_amount := None; data_items := None;
          data_formType := None; data_status := None;
          data_message :=
            Some ("New registration from " +:+ orElse (user_firstName user) "User") |};
     activity_status :=
       match user_emailVerified user with
       | Some _ => "verified"
       | None => "pending_verification"
       end |}.

(** The mapper of the quote rows. *)
Definition quoteActivity (quote : QuoteRow) : ActivityEvent :=
  {| activity_id := row_id quote;
     activity_type := quote_request;
     activity_timestamp := row_createdAt quote;
     activity_actor :=
       {| actor_id := None;
          actor_email := orElse (row_email quote) "unknown";
          actor_name :=
            Some (if truthy (row_firstName quote)
                  then trim (default EmptyString (row_firstName quote) +:+ " "
                             +:+ orElse (row_lastName quote) EmptyString)
                  else "Unknown") |};
     activity_data :=
       {| data_reference := Some (row_reference quote);
          data_amount := Some (row_total quote);
          data_items := None; data_formType := None;
          data_status := Some (row_status quote);
          data_message := None |};
     activity_status := row_status quote |}.

(** The comparator [(a, b) => b.timestamp.getTime() - a.timestamp.getTime()]. *)
Definition byTimestampDesc (a b : ActivityEvent) : Z :=
  (activity_timestamp b - activity_timestamp a)%Z.

(** The five counts of "Query 3", one [Promise.all] under one timer. *)
Definition activityCounts {V} (w : World V) : promise (nat * nat * nat * nat * nat) :=
  let prisma := database w in
  bothP (bothP (bothP (bothP
    (issue (faults w UserCount) (Fulfilled (count everyRow (users prisma))))
    (issue (faults w QuoteCount) (Fulfilled (count everyRow (quotes prisma)))))
    (issue (faults w FormSubmissionCount)
           (Fulfilled (count everyRow (formSubmissions prisma)))))
    (issue (faults w NewsletterSubscriberCount)
           (Fulfilled (count everyRow (newsletterSubscribers prisma)))))
    (issue (faults w AnalyticsEventCount)
           (Fulfilled (count (fun e => String.eqb (event_eventType e) "checkout_completed")
                             (analyticsEvents prisma)))).

(** The fetcher that [getRecentActivitiesOptimized] hands to the cache. *)
Definition recentActivities (offset limit : nat) : Fetcher (PaginatedResult ActivityEvent) :=
  fun w =>
  let prisma := database w in
  tryCatch
    (andThen
       (all3
          (withTimeout
             (issue (faults w UserFindMany)
                    (Fulfilled (findMany everyRow user_createdAt offset limit (users prisma))))
             10000)
          (withTimeout (issue (faults w QuoteRaw) (Fulfilled (quoteRows limit prisma))) 10000)
          (withTimeout (activityCounts w) 10000))
       (fun '(userActivities, businessActivities, totalCount) =>
          let activities :=
            (List.map userActivity userActivities
             ++ List.map quoteActivity businessActivities)%list in
          let sorted := slice 0 limit (sort byTimestampDesc activities) in
          let '(userCount, quoteCount, formCount, newsletterCount, checkoutCount) :=
            totalCount in
          let totalActivities :=
            userCount + quoteCount + formCount + newsletterCount + checkoutCount in
          Fulfilled
            {| data := sorted;
               total := totalActivities;
               offset := offset;
               limit := limit;
               hasMore := Nat.ltb (offset + limit) totalActivities |}))
    (emptyPage offset limit).

Definition getRecentActivitiesOptimized (now : Z) (offset limit : nat)
  (w : World (PaginatedResult ActivityEvent))
  : PaginatedResult ActivityEvent * World (PaginatedResult ActivityEvent) :=
  let cacheKey := CACHE_KEYS.dashboard.activities offset limit in
  getCachedQuery now cacheKey (recentActivities offset limit)
                 CACHE_TTL.dashboard.realtime w.

(** [where: status ? { status } : undefined]. *)
Definition statusFilter (status : option string) (q : Quote) : bool :=
  if truthy status then String.eqb (quote_status q) (default EmptyString status) else true.

(** The fetcher of [getQuotesOptimized]. *)
Definition quotesPage (offset limit : nat) (status : option string)
  : Fetcher (PaginatedResult Quote) :=
  fun w =>
  let prisma := database w in
  tryCatch
    (andThen
       (all2
          (withTimeout
             (issue (faults w QuoteFindMany)
                    (Fulfilled (findMany (statusFilter status) quote_createdAt offset limit
                                         (quotes prisma))))
             10000)
          (withTimeout
             (issue (faults w QuoteCount)
                    (Fulfilled (count (statusFilter status) (quotes prisma))))
             10000))
       (fun '(quotes, total) =>
          Fulfilled
            {| data := quotes;
               total := total;
               offset := offset;
               limit := limit;
               hasMore := Nat.ltb (offset + limit) total |}))
    (emptyPage offset limit).

Definition getQuotesOptimized (now : Z) (offset limit : nat) (status : option string)
  (w : World (PaginatedResult Quote))
  : PaginatedResult Quote * World (PaginatedResult Quote) :=
  let cacheKey := CACHE_KEYS.dashboard.quotes offset limit in
  getCachedQuery now cacheKey (quotesPage offset limit status)
                 CACHE_TTL.dashboard.realtime w.

Definition isCustomer (u : User) : bool := String.eqb (user_role u) "customer".

(** The fetcher of [getNewUsersOptimized]. *)
Definition newUsersPage (offset limit : nat) : Fetcher (PaginatedResult User) :=
  fun w =>
  let prisma := database w in
  tryCatch
    (andThen
       (all2
          (withTimeout
             (issue (faults w UserFindMany)
                    (Fulfilled (findMany isCustomer user_createdAt offset limit
                                         (users prisma))))
             10000)
          (withTimeout
             (issue (faults w UserCount) (Fulfilled (count isCustomer (users prisma))))
             10000))
       (fun '(users, total) =>
          Fulfilled
            {| data := users;
               total := total;
               offset := offset;
               limit := limit;
               hasMore := Nat.ltb (offset + limit) total |}))
    (emptyPage offset limit).

Definition getNewUsersOptimized (now : Z) (offset limit : nat)
  (w : World (PaginatedResult User))
  : PaginatedResult User * World (PaginatedResult User) :=
  let cacheKey := CACHE_KEYS.dashboard.users offset limit in
  getCachedQuery now cacheKey (newUsersPage offset limit)
                 CACHE_TTL.dashboard.realtime w.

(** The fetcher of [getNewsletterSubscribersOptimized]. *)
Definition newsletterPage (offset limit : nat)
  : Fetcher (PaginatedResult NewsletterSubscriber) :=
  fun w =>
  let prisma := database w in
  tryCatch
    (andThen
       (all2
          (withTimeout
             (issue (faults w NewsletterSubscriberFindMany)
                    (Fulfilled (findMany everyRow sub_subscribedAt offset limit
                                         (newsletterSubscribers prisma))))
             10000)
          (withTimeout
             (issue (faults w NewsletterSubscriberCount)
                    (Fulfilled (count everyRow (newsletterSubscribers prisma))))
             10000))
       (fun '(subscribers, total) =>
          Fulfilled
            {| data := subscribers;
               total := total;
               offset := offset;
               limit := limit;
               hasMore := Nat.ltb (offset + limit) total |}))
    (emptyPage offset limit).

Definition getNewsletterSubscribersOptimized (now : Z) (offset limit : nat)
  (w : World (PaginatedResult NewsletterSubscriber))
  : PaginatedResult NewsletterSubscriber * World (PaginatedResult NewsletterSubscriber) :=
  let cacheKey := CACHE_KEYS.dashboard.newsletter offset limit in
  getCachedQuery now cacheKey (newsletterPage offset limit)
                 CACHE_TTL.dashboard.realtime w.

(** The fetcher of [getFormSubmissionsOptimized]. *)
Definition formsPage (offset limit : nat) : Fetcher (PaginatedResult FormSubmission) :=
  fun w =>
  let prisma := database w in
  tryCatch
    (andThen
       (all2
          (withTimeout
             (issue (faults w FormSubmissionFindMany)
                    (Fulfilled (findMany everyRow form_submittedAt offset limit
                                         (formSubmissions prisma))))
             10000)
          (withTimeout
             (issue (faults w FormSubmissionCount)
                    (Fulfilled (count everyRow (formSubmissions prisma))))
             10000))
       (fun '(submissions, total) =>
          Fulfilled
            {| data := submissions;
               total := total;
               offset := offset;
               limit := limit;
               hasMore := Nat.ltb (offset + limit) total |}))
    (emptyPage offset limit).

Definition getFormSubmissionsOptimized (now : Z) (offset limit : nat)
  (w : World (PaginatedResult FormSubmission))
  : PaginatedResult FormSubmission * World (PaginatedResult FormSubmission) :=
  let cacheKey := CACHE_KEYS.dashboard.forms offset limit in
  getCachedQuery now cacheKey (formsPage offset limit)
                 CACHE_TTL.dashboard.realtime w.

(** [updateFormSubmissionStatus(id, status)]: the write, then the
    invalidation; an error of the write is rethrown.  (A write that is
    still unanswered when the timer fires is taken not to have happened.) *)
Definition updateFormSubmissionStatus {V} (now : Z) (id status : string) (w : World V)
  : outcome FormSubmission * World V :=
  let prisma := database w in
  match withTimeout
          (issue (faults w FormSubmissionUpdate)
                 (updateStatus id status (formSubmissions prisma)))
          10000 with
  | Fulfilled (updated, table) =>
      let w1 :=
        withDatabase w
          (mkDatabase (users prisma) (quotes prisma) table
                      (newsletterSubscribers prisma) (analyticsEvents prisma)) in
      let w2 := invalidateDashboardCache now (Some "dashboard:forms") w1 in
      (Fulfilled updated, w2)
  | Rejected error => (Rejected error, w)
  end.

(** [invalidateAllDashboardCache()]. *)
Definition invalidateAllDashboardCache {V} (now : Z) (w : World V) : World V :=
  invalidateDashboardCache now (Some "dashboard:") w.

(** ** [src/app/api/admin/dashboard-data/route.ts] *)

(** The request as the handler reads it: the host name of its URL, the
    [page] and [limit] search parameters after [parseInt(... || default)]
    (a parameter that is no numeral, hence [NaN], is treated apart, under
    [offsetAndLimit] below), and two headers. *)
Record Request := mkRequest {
  hostname : string;
  pageParam : Z;
  limitParam : Z;
  authorization : option string;
  ifNoneMatch : option string
}.

Record DashboardStats := mkDashboardStats {
  totalUsers : nat;
  newUsersThisWeek : nat;
  totalQuotes : nat;
  pendingQuotes : nat;
  totalNewsletterSubscribers : nat;
  totalFormSubmissions : nat;
  totalCheckouts : nat
}.

Record Pagination := mkPagination {
  page_total : nat;
  page_offset : nat;
  page_limit : nat;
  page_hasMore : bool
}.

Definition paginationOf {T} (r : PaginatedResult T) : Pagination :=
  mkPagination (total r) (offset r) (limit r) (hasMore r).

Record ResponseData := mkResponseData {
  resp_stats : DashboardStats;
  resp_activities : list ActivityEvent;
  resp_activitiesPagination : Pagination;
  resp_quotes : list Quote;
  resp_quotesPagination : Pagination;
  resp_newUsers : list User;
  resp_newUsersPagination : Pagination;
  resp_newsletterSubscribers : list NewsletterSubscriber;
  resp_newsletterPagination : Pagination;
  resp_formSubmissions : list FormSubmission;
  resp_formsPagination : Pagination;
  resp_timestamp : string;
  resp_responseTime : string
}.

Inductive ResponseBody :=
| ErrorBody (error : string)
| DataBody (responseData : ResponseData)
| NoBody.

Record Response := mkResponse {
  status : nat;
  body : ResponseBody;
  headers : list (string * string)
}.

(** [r.status === 'fulfilled' ? r.value : fallback]. *)
Definition valueOr {A} (r : outcome A) (fallback : A) : A :=
  match r with
  | Fulfilled value => value
  | Rejected _ => fallback
  end.

Section Route.

(** The state the fetchers act on, and the six functions imported from
    [activities-optimized]; [etagOf] is the MD5 digest of the JSON text of
    the response. *)
Variable W : Type.
Variable activitiesOf : nat -> nat -> W -> outcome (PaginatedResult ActivityEvent) * W.
Variable statsOf : W -> outcome DashboardStats * W.
Variable quotesOf : nat -> nat -> W -> outcome (PaginatedResult Quote) * W.
Variable newUsersOf : nat -> nat -> W -> outcome (PaginatedResult User) * W.
Variable newsletterOf : nat -> nat -> W -> outcome (PaginatedResult NewsletterSubscriber) * W.
Variable formsOf : nat -> nat -> W -> outcome (PaginatedResult FormSubmission) * W.
Variable etagOf : ResponseData -> string.

(** "Check authorization": the two nested tests under which the handler
    returns 401. *)
Definition unauthorized (request : Request) : bool :=
  let authHeader := authorization request in
  (negb (truthy authHeader) || negb (startsWith (default EmptyString authHeader) "Bearer "))
  && (negb (includes (hostname request) "localhost")
      && negb (includes (hostname request) "127.0.0.1")).

(** [GET(request)]; [timestamp] and [elapsed] are what the clock reads when
    the response is built.  The six fetchers of [Promise.allSettled] act on
    the state one after the other.  Nothing in the modelled [try] block
    throws, so its [catch] (status 500) is never entered. *)
Definition GET (timestamp : string) (elapsed : Z) (request : Request) (w : W)
  : Response * W :=
  let page := Z.max 0 (pageParam request) in
  let limit := Z.to_nat (Z.min 100 (Z.max 1 (limitParam request))) in
  let offset := (Z.to_nat page * limit)%nat in
  if unauthorized request
  then (mkResponse 401 (ErrorBody "Unauthorized") [], w)
  else
    let '(activitiesResult, w) := activitiesOf offset limit w in
    let '(stats, w) := statsOf w in
    let '(quotesResult, w) := quotesOf offset limit w in
    let '(newUsersResult, w) := newUsersOf offset limit w in
    let '(newsletterResult, w) := newsletterOf offset limit w in
    let '(formsResult, w) := formsOf offset limit w in
    let activities := valueOr activitiesResult (emptyPage offset limit) in
    let dashboardStats := valueOr stats (mkDashboardStats 0 0 0 0 0 0 0) in
    let quotes := valueOr quotesResult (emptyPage offset limit) in
    let newUsers := valueOr newUsersResult (emptyPage offset limit) in
    let newsletter := valueOr newsletterResult (emptyPage offset limit) in
    let forms := valueOr formsResult (emptyPage offset limit) in
    let responseData :=
      {| resp_stats := dashboardStats;
         resp_activities := data activities;
         resp_activitiesPagination := paginationOf activities;
         resp_quotes := data quotes;
         resp_quotesPagination := paginationOf quotes;
         resp_newUsers := data newUsers;
         resp_newUsersPagination := paginationOf newUsers;
         resp_newsletterSubscribers := data newsletter;
         resp_newsletterPagination := paginationOf newsletter;
         resp_formSubmissions := data forms;
         resp_formsPagination := paginationOf forms;
         resp_timestamp := timestamp;
         resp_responseTime := pretty elapsed +:+ "ms" |} in
    let etagHash := etagOf responseData in
    let cacheControl := "private, max-age=10, stale-while-revalidate=30" in
    if bool_decide (ifNoneMatch request = Some etagHash)
    then (mkResponse 304 NoBody [("ETag", etagHash); ("Cache-Control", cacheControl)], w)
    else (mkResponse 200 (DataBody responseData)
                     [("ETag", etagHash);
                      ("Cache-Control", cacheControl);
                      ("X-Response-Time", pretty elapsed +:+ "ms");
                      ("X-Cache-Key", "dashboard-data")], w).

End Route.

(** ** [activities-optimized.ts]: the statistics *)

#[export] Instance DashboardStats_truthy : Truthy DashboardStats := fun _ => true.

(** [status: { in: ['draft', 'pending'] }]. *)
Definition isPending (q : Quote) : bool :=
  String.eqb (quote_status q) "draft" || String.eqb (quote_status q) "pending".

(** The seven counts of [getActivityStatsOptimized], one [Promise.all] under
    one timer.  [weekAgo] is the value of
    [new Date(new Date().setDate(new Date().getDate() - 7))], the instant
    seven calendar days before the call. *)
Definition statsCounts {V} (weekAgo : Z) (w : World V)
  : promise (nat * nat * nat * nat * nat * nat * nat) :=
  let prisma := database w in
  bothP (bothP (bothP (bothP (bothP (bothP
    (issue (faults w UserCount) (Fulfilled (count everyRow (users prisma))))
    (issue (faults w UserCount)
           (Fulfilled (count (fun u => (weekAgo <=? user_createdAt u)%Z) (users prisma)))))
    (issue (faults w QuoteCount) (Fulfilled (count everyRow (quotes prisma)))))
    (issue (faults w QuoteCount) (Fulfilled (count isPending (quotes prisma)))))
    (issue (faults w NewsletterSubscriberCount)
           (Fulfilled (count (fun n => String.eqb (sub_status n) "active")
                             (newsletterSubscribers prisma)))))
    (issue (faults w FormSubmissionCount)
           (Fulfilled (count everyRow (formSubmissions prisma)))))
    (issue (faults w AnalyticsEventCount)
           (Fulfilled (count (fun e => String.eqb (event_eventType e) "checkout_completed")
                             (analyticsEvents prisma)))).

(** The fetcher of [getActivityStatsOptimized]. *)
Definition activityStats (weekAgo : Z) : Fetcher DashboardStats :=
  fun w =>
  tryCatch
    (andThen
       (withTimeout (statsCounts weekAgo w) 10000)
       (fun '(totalUsers, newUsersThisWeek, totalQuotes, pendingQuotes,
              totalNewsletterSubscribers, totalFormSubmissions, totalCheckouts) =>
          Fulfilled
            {| totalUsers := totalUsers;
               newUsersThisWeek := newUsersThisWeek;
               totalQuotes := totalQuotes;
               pendingQuotes := pendingQuotes;
               totalNewsletterSubscribers := totalNewsletterSubscribers;
               totalFormSubmissions := totalFormSubmissions;
               totalCheckouts := totalCheckouts |}))
    (mkDashboardStats 0 0 0 0 0 0 0).

Definition getActivityStatsOptimized (now weekAgo : Z) (w : World DashboardStats)
  : DashboardStats * World DashboardStats :=
  let cacheKey := CACHE_KEYS.dashboard.stats in
  getCachedQuery now cacheKey (activityStats weekAgo) CACHE_TTL.dashboard.stats w.

(** ** [src/scripts/clear-cache.ts] *)

(** [clearCache()], up to [process.exit]. *)
Definition clearCache {V} (now : Z) (w : World V) : World V :=
  cache.invalidatePattern now "companies:all" w.

(** ** The rate limiter of the e-mail validation module

    [emailRateLimits] is a module-level [Map]; [now] is [Date.now()]. *)

Record RateRecord := mkRateRecord { rate_count : Z; rate_resetTime : Z }.

(** [checkEmailRateLimit(email, limit, windowMs)]. *)
Definition checkEmailRateLimit (now : Z) (email : string) (limit windowMs : Z)
  (emailRateLimits : gmap string RateRecord) : bool * gmap string RateRecord :=
  match emailRateLimits !! email with
  | None => (true, <[email := mkRateRecord 1 (now + windowMs)]> emailRateLimits)
  | Some record =>
      if (rate_resetTime record <? now)%Z
      then (true, <[email := mkRateRecord 1 (now + windowMs)]> emailRateLimits)
      else if (limit <=? rate_count record)%Z
      then (false, emailRateLimits)
      else (true,
            <[email := mkRateRecord (rate_count record + 1) (rate_resetTime record)]>
              emailRateLimits)
  end.

Record RateStatus := mkRateStatus {
  limited : bool;
  remaining : Z;
  status_resetTime : option Z
}.

(** [getEmailRateLimitStatus(email)]. *)
Definition getEmailRateLimitStatus (now : Z) (email : string)
  (emailRateLimits : gmap string RateRecord) : RateStatus :=
  match emailRateLimits !! email with
  | None => mkRateStatus false 5 None
  | Some record =>
      if (rate_resetTime record <? now)%Z
      then mkRateStatus false 5 None
      else mkRateStatus (5 <=? rate_count record)%Z
                        (Z.max 0 (5 - rate_count record))
                        (Some (rate_resetTime record))
  end.

(** [clearEmailRateLimits()]. *)
Definition clearEmailRateLimits (emailRateLimits : gmap string RateRecord)
  : gmap string RateRecord := ∅.

(** ** Numbers that are no natural numbers

    [offset] and [limit] are of type [number].  The fetchers above take
    them as natural numbers; a [number] can also be negative, or [NaN].
    The handler computes its page and its limit with [parseInt], which
    gives [NaN] on a search parameter that is no numeral, as in
    [?limit=abc]. *)

Inductive number :=
| Num (n : Z)
| NaN.

(** [a + b], [a * b], [a < b], [a <= b], [Math.max(a, b)] and
    [Math.min(a, b)]: arithmetic on [NaN] gives [NaN], and a comparison
    with [NaN] is false. *)
Definition numAdd (a b : number) : number :=
  match a, b with
  | Num x, Num y => Num (x + y)
  | _, _ => NaN
  end.

Definition numMul (a b : number) : number :=
  match a, b with
  | Num x, Num y => Num (x * y)
  | _, _ => NaN
  end.

Definition numLt (a b : number) : bool :=
  match a, b with
  | Num x, Num y => (x <? y)%Z
  | _, _ => false
  end.

Definition numLe (a b : number) : bool :=
  match a, b with
  | Num x, Num y => (x <=? y)%Z
  | _, _ => false
  end.

Definition mathMax (a b : number) : number :=
  match a, b with
  | Num x, Num y => Num (Z.max x y)
  | _, _ => NaN
  end.

Definition mathMin (a b : number) : number :=
  match a, b with
  | Num x, Num y => Num (Z.min x y)
  | _, _ => NaN
  end.

(** The first three lines of [GET] on what the two [parseInt] give: the
    offset and the limit that are handed to the five fetchers. *)
Definition offsetAndLimit (pageParam limitParam : number) : number * number :=
  let page := mathMax (Num 0) pageParam in
  let limit := mathMin (Num 100) (mathMax (Num 1) limitParam) in
  let offset := numMul page limit in
  (offset, limit).

(** [PaginatedResult<T>] with its three numbers as the type has them. *)
Record NumberedResult (T : Type) := mkNumberedResult {
  n_data : list T;
  n_total : number;
  n_offset : number;
  n_limit : number;
  n_hasMore : bool
}.
Arguments mkNumberedResult {T} n_data n_total n_offset n_limit n_hasMore.
Arguments n_data {T} n.
Arguments n_total {T} n.
Arguments n_offset {T} n.
Arguments n_limit {T} n.
Arguments n_hasMore {T} n.

(** The fetcher of [getQuotesOptimized] on any two numbers.  What
    [findMany] answers when [take] or [skip] is no natural number is the
    business of Prisma: it is [rows] here.  The rest is the code of the
    fetcher: the count, the two timers, the page built from the numbers as
    they were given, and the [catch]. *)
Definition quotesPageOn {V} (offset limit : number) (status : option string)
  (rows : outcome (list Quote)) (w : World V) : NumberedResult Quote :=
  let prisma := database w in
  tryCatch
    (andThen
       (all2
          (withTimeout (issue (faults w QuoteFindMany) rows) 10000)
          (withTimeout
             (issue (faults w QuoteCount)
                    (Fulfilled (count (statusFilter status) (quotes prisma))))
             10000))
       (fun '(quotes, total) =>
          Fulfilled
            {| n_data := quotes;
               n_total := Num (Z.of_nat total);
               n_offset := offset;
               n_limit := limit;
               n_hasMore := numLt (numAdd offset limit) (Num (Z.of_nat total)) |}))
    {| n_data := [];
       n_total := Num 0;
       n_offset := offset;
       n_limit := limit;
       n_hasMore := false |}.

(** ** Vocabulary of the properties *)

(** A result on natural numbers, read as a result on numbers. *)
Definition numbered {T} (r : PaginatedResult T) : NumberedResult T :=
  {| n_data := data r;
     n_total := Num (Z.of_nat (total r));
     n_offset := Num (Z.of_nat (offset r));
     n_limit := Num (Z.of_nat (limit r));
     n_hasMore := hasMore r |}.

(** [hasMore == (offset + limit < total)], on numbers. *)
Definition hasMoreAgrees {T} (r : NumberedResult T) : bool :=
  Bool.eqb (n_hasMore r) (numLt (numAdd (n_offset r) (n_limit r)) (n_total r)).

(** [data.length <= limit], on numbers. *)
Definition withinLimit {T} (r : NumberedResult T) : bool :=
  numLe (Num (Z.of_nat (length (n_data r)))) (n_limit r).

(** [hasMore == (offset + limit < total)] and [data.length <= limit]. *)
Definition paginated {T} (r : PaginatedResult T) : Prop :=
  hasMore r = Nat.ltb (offset r + limit r) (total r) /\ length (data r) <= limit r.


Definition healthy (f : Fault) : bool :=
  match f with
  | Healthy => true
  | _ => false
  end.

(** Do all the calls [qs] answer in time, without throwing? *)
Definition allAnswer {V} (w : World V) (qs : list Query) : bool :=
  forallb (fun q => healthy (faults w q)) qs.

(** The calls each fetcher makes. *)
Definition activityQueries : list Query :=
  [UserFindMany; QuoteRaw; UserCount; QuoteCount; FormSubmissionCount;
   NewsletterSubscriberCount; AnalyticsEventCount].
Definition quoteQueries : list Query := [QuoteFindMany; QuoteCount].
Definition userQueries : list Query := [UserFindMany; UserCount].
Definition newsletterQueries : list Query :=
  [NewsletterSubscriberFindMany; NewsletterSubscriberCount].
Definition formQueries : list Query := [FormSubmissionFindMany; FormSubmissionCount].

(** The key under which a call finds nothing usable in the cache. *)
Definition misses {V} `{Truthy V} (now : Z) (key : string) (w : World V) : Prop :=
  truthy (cache.get now key w).1 = false.

(** Newest first. *)
Definition newestFirst {A} (key : A -> Z) (a b : A) : Prop := (key b <= key a)%Z.

(** The elements of [l] whose key is [t], in the order of [l]. *)
Definition keyed {A} (key : A -> Z) (t : Z) (l : list A) : list A :=
  List.filter (fun x => (key x =? t)%Z) l.

(** The feed as the specification words it: all mapped events of the
    sources, sorted descending by timestamp with ties broken by id, cut to
    the window from [o] to [o + l]. *)
Definition byTimestampThenId (a b : ActivityEvent) : Z :=
  if (activity_timestamp b =? activity_timestamp a)%Z then
    match String.compare (activity_id a) (activity_id b) with
    | Lt => (-1)%Z
    | Eq => 0%Z
    | Gt => 1%Z
    end
  else (activity_timestamp b - activity_timestamp a)%Z.

Definition specFeed (o l : nat) (db : Database) : list ActivityEvent :=
  slice o (o + l)
    (sort byTimestampThenId
       (List.map userActivity (users db)
        ++ List.map quoteActivity (flat_map (joinUser (users db)) (quotes db)))%list).

(** A pattern without wildcard. *)
Fixpoint isLiteral (p : string) : bool :=
  match p with
  | EmptyString => true
  | String c p' => negb (Ascii.eqb c "*") && negb (Ascii.eqb c "?") && isLiteral p'
  end.

(** A pattern made of [*], [?] and characters that stand for themselves: it
    opens no bracket class and has no backslash (character 92), the two
    forms of a Redis pattern that [globMatch] does not read. *)
Fixpoint isPlainGlob (p : string) : bool :=
  match p with
  | EmptyString => true
  | String c p' =>
      negb (Ascii.eqb c "[") && negb (Ascii.eqb c (ascii_of_nat 92)) && isPlainGlob p'
  end.

(** Does [s] contain a colon? *)
Fixpoint hasColon (s : string) : bool :=
  match s with
  | EmptyString => false
  | String c s' => Ascii.eqb c ":" || hasColon s'
  end.

(** The key functions of the five paginated fetchers. *)
Definition pageKeys : list (nat -> nat -> string) :=
  [CACHE_KEYS.dashboard.activities; CACHE_KEYS.dashboard.quotes;
   CACHE_KEYS.dashboard.users; CACHE_KEYS.dashboard.newsletter;
   CACHE_KEYS.dashboard.forms].

(** Three computed pages of one fetcher [get] on a table [rows] no two rows
    of which have the same sort date [key] (so that [orderBy] leaves the
    database no choice): a page, the page that follows it, and the page that
    spans both.  The first two make up the third, and report the same
    total. *)
Definition pagesCompose {T}
  (get : Z -> nat -> nat -> World (PaginatedResult T)
         -> PaginatedResult T * World (PaginatedResult T))
  (keyOf : nat -> nat -> string) (qs : list Query)
  (key : T -> Z) (rows : Database -> list T) : Prop :=
  forall (t1 t2 t3 : Z) (o l m : nat) (w : World (PaginatedResult T)),
    NoDup (List.map key (rows (database w))) ->
    allAnswer w qs = true ->
    misses t1 (keyOf o l) w ->
    let r1 := get t1 o l w in
    misses t2 (keyOf (o + l) m) r1.2 ->
    let r2 := get t2 (o + l) m r1.2 in
    misses t3 (keyOf o (l + m)) r2.2 ->
    let r3 := get t3 o (l + m) r2.2 in
    (data r1.1 ++ data r2.1)%list = data r3.1 /\ total r1.1 = total r2.1.

(** [hasMore] of a computed page says whether the next page of the same
    size, computed in turn, holds a row. *)
Definition hasMoreMeansNextPage {T}
  (get : Z -> nat -> nat -> World (PaginatedResult T)
         -> PaginatedResult T * World (PaginatedResult T))
  (keyOf : nat -> nat -> string) (qs : list Query) : Prop :=
  forall (t1 t2 : Z) (o l : nat) (w : World (PaginatedResult T)),
    0 < l ->
    allAnswer w qs = true ->
    misses t1 (keyOf o l) w ->
    let r1 := get t1 o l w in
    misses t2 (keyOf (o + l) l) r1.2 ->
    let r2 := get t2 (o + l) l r1.2 in
    hasMore r1.1 = true <-> data r2.1 <> [].

(** A fetcher that computes [findMany] and [count] on one table [rows]
    whenever the calls [qs] answer. *)
Definition pagerOf {T} (p : T -> bool) (key : T -> Z) (rows : Database -> list T)
  (qs : list Query) (fetcher : nat -> nat -> Fetcher (PaginatedResult T)) : Prop :=
  forall o l w, allAnswer w qs = true ->
    data (fetcher o l w) = findMany p key o l (rows (database w))
    /\ total (fetcher o l w) = count p (rows (database w))
    /\ hasMore (fetcher o l w) = Nat.ltb (o + l) (count p (rows (database w))).

Definition statsQueries : list Query :=
  [UserCount; QuoteCount; NewsletterSubscriberCount; FormSubmissionCount;
   AnalyticsEventCount].

(** The request with its page and limit brought into range. *)
Definition clamped (request : Request) : Request :=
  mkRequest (hostname request)
            (Z.max 0 (pageParam request))
            (Z.min 100 (Z.max 1 (limitParam request)))
            (authorization request)
            (ifNoneMatch request).

(** The request without its [If-None-Match] header. *)
Definition unconditional (request : Request) : Request :=
  mkRequest (hostname request) (pageParam request) (limitParam request)
            (authorization request) None.

(** A part of the response that has fallen back: no row, a total of 0 and
    no further page. *)
Definition fellBack {T} (rows : list T) (pagination : Pagination) : Prop :=
  rows = [] /\ page_total pagination = 0 /\ page_hasMore pagination = false.

(** A response whose six parts have all fallen back. *)
Definition allFellBack (d : ResponseData) : Prop :=
  resp_stats d = mkDashboardStats 0 0 0 0 0 0 0
  /\ fellBack (resp_activities d) (resp_activitiesPagination d)
  /\ fellBack (resp_quotes d) (resp_quotesPagination d)
  /\ fellBack (resp_newUsers d) (resp_newUsersPagination d)
  /\ fellBack (resp_newsletterSubscribers d) (resp_newsletterPagination d)
  /\ fellBack (resp_formSubmissions d) (resp_formsPagination d).

(** The answers of [checkEmailRateLimit] to one address at the instants
    [times], one call after the other. *)
Fixpoint checkEach (times : list Z) (email : string) (limit windowMs : Z)
  (emailRateLimits : gmap string RateRecord) : list bool * gmap string RateRecord :=
  match times with
  | [] => ([], emailRateLimits)
  | t :: times' =>
      let '(ok, m1) := checkEmailRateLimit t email limit windowMs emailRateLimits in
      let '(oks, m2) := checkEach times' email limit windowMs m1 in
      (ok :: oks, m2)
  end.

(** ** Sample worlds *)

Definition configured : ProcessEnv :=
  mkProcessEnv (Some "https://cache.upstash.io") (Some "token").

Definition unconfigured : ProcessEnv := mkProcessEnv None None.

Definition allHealthy : Query -> Fault := fun _ => Healthy.

Definition emptyDatabase : Database := mkDatabase [] [] [] [] [].

(** A process that has just started: nothing cached, nothing fetched. *)
Definition coldWorld {V} (e : ProcessEnv) (d : Database) (f : Query -> Fault) : World V :=
  mkWorld e ∅ d f 0.

#[export] Instance Query_eq_dec : EqDecision Query.
Proof. solve_decision. Defined.

(** One call is in the state [f], the others answer. *)
Definition onlyFault (q : Query) (f : Fault) : Query -> Fault :=
  fun q' => if decide (q' = q) then f else Healthy.

Definition ann : User :=
  mkUser 1 "ann@example.com" (Some "Ann") (Some "Lee") 1000 None "customer".

Definition quoteA : Quote := mkQuote "quote_a" "Q-001" "pending" 250 2000 (Some 1%Z).

Definition quoteB : Quote := mkQuote "quote_b" "Q-002" "draft" 90 1500 None.

Definition contactForm : FormSubmission := mkFormSubmission "form_1" "contact" "new" 3000.

Definition busyDatabase : Database :=
  mkDatabase [ann] [quoteB; quoteA] [contactForm] [] [].




Definition formOnlyDatabase : Database := mkDatabase [] [] [contactForm] [] [].

Definition quotesOnlyDatabase : Database := mkDatabase [] [quoteB; quoteA] [] [] [].

(** Quotes created at the very instant Ann registered. *)
Definition tiedQuote (id : string) : Quote := mkQuote id "Q-003" "draft" 10 1000 None.

Definition tiedDatabase (id : string) : Database := mkDatabase [ann] [tiedQuote id] [] [] [].

(** Fetchers that only record that they ran: the state counts the calls. *)
Definition probe {A} (a : A) : nat -> outcome A * nat := fun n => (Fulfilled a, S n).

Definition probedGET : string -> Z -> Request -> nat -> Response * nat :=
  GET nat
      (fun o l => probe (emptyPage o l))
      (probe (mkDashboardStats 0 0 0 0 0 0 0))
      (fun o l => probe (emptyPage o l))
      (fun o l => probe (emptyPage o l))
      (fun o l => probe (emptyPage o l))
      (fun o l => probe (emptyPage o l))
      (fun _ => "d41d8cd98f00b204e9800998ecf8427e").

(** A cache that holds a page of quotes until 100, and three entries that
    do not expire. *)
Definition warmWorld : World jsval :=
  mkWorld configured
          (list_to_map
             [("dashboard:quotes:0:20", mkEntry (JNum 1) (Some 100%Z));
              ("dashboard:", mkEntry (JNum 2) None);
              ("companies:all", mkEntry (JNum 3) None);
              ("products:all", mkEntry (JNum 4) None)])
          emptyDatabase allHealthy 0.

(** A URL that is not an https one. *)
Definition plainHttp : ProcessEnv :=
  mkProcessEnv (Some "http://cache.upstash.io") (Some "token").

(** Fetchers that reject, and count that they ran. *)
Definition failing {A} (reason : string) : nat -> outcome A * nat :=
  fun n => (Rejected reason, S n).

Definition failingGET : string -> Z -> Request -> nat -> Response * nat :=
  GET nat
      (fun _ _ => failing "activities")
      (failing "stats")
      (fun _ _ => failing "quotes")
      (fun _ _ => failing "users")
      (fun _ _ => failing "newsletter")
      (fun _ _ => failing "forms")
      (fun _ => "d41d8cd98f00b204e9800998ecf8427e").

(** * Properties *)

(** ** The cache wrapper *)

Section CacheFacts.
Context {V : Type} `{Truthy V}.
Implicit Type w : World V.

Lemma getRedis_withServer w db :
  getRedis (withServer w db) = (fun _ => db) <$> getRedis w.
Proof. unfold getRedis; simpl. repeat case_match; reflexivity. Qed.

Lemma getRedis_fetched w : getRedis (fetched w) = getRedis w.
Proof. reflexivity. Qed.

Lemma getRedis_server w db : getRedis w = Some db -> db = server w.
Proof. unfold getRedis. repeat case_match; congruence. Qed.

Lemma cache_get_world now key w : (cache.get now key w).2 = w.
Proof. unfold cache.get. case_match; reflexivity. Qed.

Lemma cache_get_fetched now key w :
  (cache.get now key (fetched w)).1 = (cache.get now key w).1.
Proof. unfold cache.get. rewrite getRedis_fetched. case_match; reflexivity. Qed.

(** A miss: the fetcher runs once and its value is written back. *)
Lemma getCachedQuery_miss now key (fetcher : Fetcher V) ttl w :
  truthy (cache.get now key w).1 = false ->
  getCachedQuery now key fetcher ttl w
  = (fetcher w, cache.set now key (fetcher w) (Some ttl) (fetched w)).
Proof.
  intros Hmiss. unfold getCachedQuery.
  pose proof (cache_get_world now key w) as Hw.
  destruct (cache.get now key w) as [cached w1]; simpl in *; subst w1.
  destruct cached as [v|]; [|reflexivity].
  unfold truthy, option_truthy in Hmiss. rewrite Hmiss. reflexivity.
Qed.

(** A hit: the stored value, and nothing else happens. *)
Lemma getCachedQuery_hit now key (fetcher : Fetcher V) ttl w v :
  (cache.get now key w).1 = Some v -> truthy v = true ->
  getCachedQuery now key fetcher ttl w = (v, w).
Proof.
  intros Hget Hv. unfold getCachedQuery.
  pose proof (cache_get_world now key w) as Hw.
  destruct (cache.get now key w) as [cached w1]; simpl in *; subst.
  rewrite Hv. reflexivity.
Qed.

Lemma fetches_set now key v ttl w :
  fetches (cache.set now key v ttl w) = fetches w.
Proof. unfold cache.set. repeat case_match; reflexivity. Qed.

(** What [cache.get] sees after a [cache.set] with a positive TTL. *)
Lemma cache_get_set now now' key v ttl w :
  getRedis w <> None -> (0 < ttl)%Z ->
  (cache.get now' key (cache.set now key v (Some ttl) w)).1
  = if (now' <? now + ttl)%Z then Some v else None.
Proof.
  intros Hredis Httl. unfold cache.get, cache.set.
  destruct (getRedis w) as [db|] eqn:Hdb; [|congruence].
  assert (truthy (Some ttl) = true) as ->.
  { cbv [truthy option_truthy Z_truthy]. destruct (Z.eqb_spec ttl 0); [lia | reflexivity]. }
  unfold Redis.SETEX; simpl. destruct (Z.ltb_spec 0 ttl); [|lia].
  rewrite getRedis_withServer, Hdb; simpl.
  unfold Redis.GET. rewrite lookup_insert_eq. unfold live; simpl.
  reflexivity.
Qed.

(** An entry that is a miss stays one as time passes. *)
Lemma cache_get_miss_later now now' key w :
  (now <= now')%Z ->
  truthy (cache.get now key w).1 = false ->
  truthy (cache.get now' key w).1 = false.
Proof.
  intros Hle. unfold cache.get. destruct (getRedis w) as [db|]; [|done].
  simpl. unfold Redis.GET. destruct (db !! key) as [e|]; [|done].
  unfold live. destruct (expiresAt e) as [t|]; [|done].
  destruct (Z.ltb_spec now' t), (Z.ltb_spec now t); try done. lia.
Qed.

(** Writing a falsy value over a miss leaves a miss. *)
Lemma cache_get_set_falsy now now' key v ttl w :
  (now <= now')%Z ->
  truthy (cache.get now key w).1 = false ->
  truthy v = false ->
  truthy (cache.get now' key (cache.set now key v ttl w)).1 = false.
Proof.
  intros Hle Hmiss Hv.
  pose proof (cache_get_miss_later now now' key w Hle Hmiss) as Hlater.
  unfold cache.set. destruct (getRedis w) as [db|] eqn:Hdb; [|done].
  assert (forall e, truthy (cache.get now' key (withServer w (<[key:=mkEntry v e]> db))).1
                    = false) as Hins.
  { intros e. unfold cache.get. rewrite getRedis_withServer, Hdb. simpl.
    unfold Redis.GET. rewrite lookup_insert_eq. destruct (live now' _); done. }
  destruct (truthy ttl).
  - unfold Redis.SETEX. destruct (0 <? default 0 ttl)%Z; [apply Hins | exact Hlater].
  - apply Hins.
Qed.

End CacheFacts.

(** C8 (as amended).  With the Redis client configured, a positive TTL and
    a truthy computed value: when the first call at [t0] is a miss, it runs
    the fetcher once; a second call at [t1], less than [ttl] seconds later,
    returns the stored value and does not run the fetcher; a call at [t2],
    [ttl] seconds or more after the store, runs the fetcher again. *)
Theorem getCachedQuery_computes_once {V} `{Truthy V} (w : World V) (key : string)
  (compute : Fetcher V) (ttl t0 t1 t2 : Z) :
  getRedis w <> None ->
  (0 < ttl)%Z ->
  misses t0 key w ->
  truthy (compute w) = true ->
  (t0 <= t1 < t0 + ttl)%Z ->
  (t0 + ttl <= t2)%Z ->
  let r0 := getCachedQuery t0 key compute ttl w in
  let r1 := getCachedQuery t1 key compute ttl r0.2 in
  let r2 := getCachedQuery t2 key compute ttl r1.2 in
  r0.1 = compute w /\ fetches r0.2 = S (fetches w) /\
  r1.1 = compute w /\ fetches r1.2 = S (fetches w) /\
  fetches r2.2 = S (S (fetches w)).
Proof.
  intros Hredis Httl Hmiss Hv [H01 H1] H2. unfold misses in Hmiss. cbv zeta.
  rewrite (getCachedQuery_miss t0 key compute ttl w Hmiss). simpl.
  set (w1 := cache.set t0 key (compute w) (Some ttl) (fetched w)).
  assert ((cache.get t1 key w1).1 = Some (compute w)) as Hhit.
  { unfold w1. rewrite cache_get_set by done.
    destruct (Z.ltb_spec t1 (t0 + ttl)); [done | lia]. }
  rewrite (getCachedQuery_hit t1 key compute ttl w1 _ Hhit Hv). simpl.
  assert (truthy (cache.get t2 key w1).1 = false) as Hgone.
  { unfold w1. rewrite cache_get_set by done.
    destruct (Z.ltb_spec t2 (t0 + ttl)); [lia | done]. }
  rewrite (getCachedQuery_miss t2 key compute ttl w1 Hgone). simpl.
  unfold w1. repeat (rewrite fetches_set; simpl). done.
Qed.

(** C10.  A falsy value is never served from the cache: when the fetcher
    yields falsy values and the first call at [t0] is a miss, the next call
    at any later [t1] (inside the TTL window or not) runs the fetcher again,
    and the entry is still a miss for every call after that. *)
Theorem getCachedQuery_falsy_is_miss {V} `{Truthy V} (w : World V) (key : string)
  (compute : Fetcher V) (ttl t0 t1 t2 : Z) :
  (forall w', truthy (compute w') = false) ->
  misses t0 key w ->
  (t0 <= t1)%Z ->
  (t1 <= t2)%Z ->
  let r0 := getCachedQuery t0 key compute ttl w in
  let r1 := getCachedQuery t1 key compute ttl r0.2 in
  fetches r0.2 = S (fetches w) /\
  r1.1 = compute r0.2 /\ fetches r1.2 = S (S (fetches w)) /\
  misses t2 key r1.2.
Proof.
  intros Hfalsy Hmiss H01 H12. unfold misses in *. cbv zeta.
  rewrite (getCachedQuery_miss t0 key compute ttl w Hmiss). simpl.
  set (w1 := cache.set t0 key (compute w) (Some ttl) (fetched w)).
  assert (truthy (cache.get t1 key w1).1 = false) as Hmiss1.
  { apply cache_get_set_falsy; [done | by rewrite cache_get_fetched | done]. }
  rewrite (getCachedQuery_miss t1 key compute ttl w1 Hmiss1). simpl.
  repeat (rewrite fetches_set; simpl).
  split; [by unfold w1; rewrite fetches_set|].
  split; [done|].
  split; [by unfold w1; rewrite fetches_set|].
  apply cache_get_set_falsy; [done | by rewrite cache_get_fetched | done].
Qed.

Lemma getCachedQuery_computes_once_witness :
  let w : World jsval := coldWorld configured emptyDatabase allHealthy in
  let compute : Fetcher jsval := fun _ => JNum 7 in
  let r0 := getCachedQuery 0 "k" compute 10 w in
  let r1 := getCachedQuery 5 "k" compute 10 r0.2 in
  let r2 := getCachedQuery 11 "k" compute 10 r1.2 in
  r0.1 = JNum 7 /\ fetches r0.2 = 1 /\
  r1.1 = JNum 7 /\ fetches r1.2 = 1 /\
  fetches r2.2 = 2.
Proof.
  apply (getCachedQuery_computes_once
           (coldWorld configured emptyDatabase allHealthy) "k" (fun _ => JNum 7) 10 0 5 11).
  - vm_compute. discriminate.
  - lia.
  - reflexivity.
  - reflexivity.
  - lia.
  - lia.
Defined.

(** C8 (as stated) fails in four ways.  The fetcher of a falsy value runs
    at both of two calls five seconds apart under a TTL of ten; so does any
    fetcher when the Redis client is not configured; with a TTL of zero the
    value is stored without expiry, so that a call made later does not run
    the fetcher again; and two calls that find the value already stored run
    the fetcher not once but never. *)
Lemma getCachedQuery_computes_once_cex :
  let falsy : Fetcher jsval := fun _ => JNum 0 in
  let seven : Fetcher jsval := fun _ => JNum 7 in
  let w : World jsval := coldWorld configured emptyDatabase allHealthy in
  let u : World jsval := coldWorld unconfigured emptyDatabase allHealthy in
  fetches (getCachedQuery 5 "k" falsy 10 (getCachedQuery 0 "k" falsy 10 w).2).2 = 2
  /\ fetches (getCachedQuery 5 "k" seven 10 (getCachedQuery 0 "k" seven 10 u).2).2 = 2
  /\ fetches (getCachedQuery 60 "k" seven 0 (getCachedQuery 0 "k" seven 0 w).2).2 = 1
  /\ (let warm := (getCachedQuery 0 "k" seven 10 w).2 in
      fetches (getCachedQuery 2 "k" seven 10 (getCachedQuery 1 "k" seven 10 warm).2).2
      = fetches warm).
Proof. vm_compute. repeat split. Qed.

Lemma getCachedQuery_falsy_is_miss_witness :
  let w : World jsval := coldWorld configured emptyDatabase allHealthy in
  let compute : Fetcher jsval := fun _ => JStr EmptyString in
  let r0 := getCachedQuery 0 "k" compute 10 w in
  let r1 := getCachedQuery 5 "k" compute 10 r0.2 in
  fetches r0.2 = 1 /\
  r1.1 = JStr EmptyString /\ fetches r1.2 = 2 /\
  misses 6 "k" r1.2.
Proof.
  apply (getCachedQuery_falsy_is_miss
           (coldWorld configured emptyDatabase allHealthy) "k" (fun _ => JStr EmptyString) 10 0 5 6).
  - intros w'. reflexivity.
  - reflexivity.
  - lia.
  - lia.
Defined.

(** ** Promises, timers and [try]/[catch] *)

Lemma isFulfilled_all2 {A B} (a : outcome A) (b : outcome B) :
  isFulfilled (all2 a b) = isFulfilled a && isFulfilled b.
Proof. destruct a, b; reflexivity. Qed.

Lemma isFulfilled_all3 {A B C} (a : outcome A) (b : outcome B) (c : outcome C) :
  isFulfilled (all3 a b c) = isFulfilled a && isFulfilled b && isFulfilled c.
Proof. destruct a, b, c; reflexivity. Qed.


(** A rejected body lands in the [catch]. *)
Lemma tryCatch_rejected {A B} (body : outcome A) (k : A -> outcome B) (fallback : B) :
  isFulfilled body = false -> tryCatch (andThen body k) fallback = fallback.
Proof. destruct body; [discriminate | reflexivity]. Qed.


Lemma isFulfilled_withTimeout_bothP {A B} (a : promise A) (b : promise B) ms :
  isFulfilled (withTimeout (bothP a b) ms)
  = isFulfilled (withTimeout a ms) && isFulfilled (withTimeout b ms).
Proof. destruct a as [[?|?]|], b as [[?|?]|]; reflexivity. Qed.

(** ** The pagination invariant *)




(** ** The fetchers *)

Lemma isFulfilled_withTimeout_issue_healthy {A} (f : Fault) (a : A) ms :
  isFulfilled (withTimeout (issue f (Fulfilled a)) ms) = healthy f.
Proof. destruct f; reflexivity. Qed.

Lemma isFulfilled_activityCounts {V} (w : World V) ms :
  isFulfilled (withTimeout (activityCounts w) ms)
  = allAnswer w [UserCount; QuoteCount; FormSubmissionCount;
                 NewsletterSubscriberCount; AnalyticsEventCount].
Proof.
  unfold activityCounts, allAnswer.
  rewrite !isFulfilled_withTimeout_bothP, !isFulfilled_withTimeout_issue_healthy.
  simpl. rewrite andb_true_r, !andb_assoc. reflexivity.
Qed.







(** ** The invariant through the cache *)

Section CacheSound.
Context {T : Type}.
Implicit Type w : World (PaginatedResult T).





End CacheSound.



(** At natural numbers, with the rows [findMany] returns there, the fetcher
    on numbers is the fetcher of [getQuotesOptimized]. *)
Lemma quotesPageOn_natural (o l : nat) (status : option string)
  (w : World (PaginatedResult Quote)) :
  quotesPageOn (Num (Z.of_nat o)) (Num (Z.of_nat l)) status
    (Fulfilled (findMany (statusFilter status) quote_createdAt o l (quotes (database w))))
    w
  = numbered (quotesPage o l status w).
Proof.
  unfold quotesPageOn, quotesPage, numbered, emptyPage.
  destruct (faults w QuoteFindMany), (faults w QuoteCount); simpl; try reflexivity.
  f_equal. rewrite <- Nat2Z.inj_add.
  destruct (Nat.ltb_spec (o + l) (count (statusFilter status) (quotes (database w))));
    [apply Z.ltb_lt | apply Z.ltb_ge]; lia.
Qed.

(** On natural numbers the two halves of the invariant are the two tests on
    numbers. *)
Lemma paginated_numbered {T} (r : PaginatedResult T) :
  paginated r <-> hasMoreAgrees (numbered r) = true /\ withinLimit (numbered r) = true.
Proof.
  unfold paginated, hasMoreAgrees, withinLimit, numbered. simpl.
  rewrite <- Nat2Z.inj_add, Z.leb_le, <- Nat2Z.inj_le.
  assert ((Z.of_nat (offset r + limit r) <? Z.of_nat (total r))%Z
          = Nat.ltb (offset r + limit r) (total r)) as ->.
  { destruct (Nat.ltb_spec (offset r + limit r) (total r));
      [apply Z.ltb_lt | apply Z.ltb_ge]; lia. }
  split; intros [Hm Hl]; (split; [|exact Hl]).
  - rewrite Hm. apply eqb_reflx.
  - by apply eqb_prop.
Qed.

(** On integers [offsetAndLimit] computes what [GET] computes. *)
Lemma offsetAndLimit_integers (page limit : Z) :
  offsetAndLimit (Num page) (Num limit)
  = (Num (Z.max 0 page * Z.min 100 (Z.max 1 limit)), Num (Z.min 100 (Z.max 1 limit))).
Proof.
  unfold offsetAndLimit. simpl. f_equal; f_equal; lia.
Qed.


(** ** Failure of a call *)

Lemma allAnswer_elem {V} (w : World V) (qs : list Query) (q : Query) :
  allAnswer w qs = true -> q ∈ qs -> faults w q = Healthy.
Proof.
  unfold allAnswer. rewrite forallb_forall. intros Hall Hq.
  apply list_elem_of_In, Hall in Hq. by destruct (faults w q).
Qed.

Lemma allAnswer_false {V} (w : World V) (qs : list Query) (q : Query) :
  q ∈ qs -> faults w q <> Healthy -> allAnswer w qs = false.
Proof.
  intros Hq Hbad. destruct (allAnswer w qs) eqn:Hall; [|done].
  by apply (allAnswer_elem w qs q) in Hall.
Qed.

(** Splits on the health of every call in sight. *)
Ltac health_cases :=
  repeat match goal with
         | |- context [healthy ?f] => destruct (healthy f)
         | H : context [healthy ?f] |- _ => destruct (healthy f)
         end.

Lemma recentActivities_failure o l (w : World (PaginatedResult ActivityEvent)) :
  allAnswer w activityQueries = false -> recentActivities o l w = emptyPage o l.
Proof.
  intros Hbad. unfold recentActivities. apply tryCatch_rejected.
  rewrite isFulfilled_all3, !isFulfilled_withTimeout_issue_healthy,
    isFulfilled_activityCounts.
  unfold allAnswer, activityQueries in *. simpl in *. health_cases; done.
Qed.

Lemma quotesPage_failure o l st (w : World (PaginatedResult Quote)) :
  allAnswer w quoteQueries = false -> quotesPage o l st w = emptyPage o l.
Proof.
  intros Hbad. unfold quotesPage. apply tryCatch_rejected.
  rewrite isFulfilled_all2, !isFulfilled_withTimeout_issue_healthy.
  unfold allAnswer, quoteQueries in *. simpl in *. health_cases; done.
Qed.

Lemma newUsersPage_failure o l (w : World (PaginatedResult User)) :
  allAnswer w userQueries = false -> newUsersPage o l w = emptyPage o l.
Proof.
  intros Hbad. unfold newUsersPage. apply tryCatch_rejected.
  rewrite isFulfilled_all2, !isFulfilled_withTimeout_issue_healthy.
  unfold allAnswer, userQueries in *. simpl in *. health_cases; done.
Qed.

Lemma newsletterPage_failure o l (w : World (PaginatedResult NewsletterSubscriber)) :
  allAnswer w newsletterQueries = false -> newsletterPage o l w = emptyPage o l.
Proof.
  intros Hbad. unfold newsletterPage. apply tryCatch_rejected.
  rewrite isFulfilled_all2, !isFulfilled_withTimeout_issue_healthy.
  unfold allAnswer, newsletterQueries in *. simpl in *. health_cases; done.
Qed.

Lemma formsPage_failure o l (w : World (PaginatedResult FormSubmission)) :
  allAnswer w formQueries = false -> formsPage o l w = emptyPage o l.
Proof.
  intros Hbad. unfold formsPage. apply tryCatch_rejected.
  rewrite isFulfilled_all2, !isFulfilled_withTimeout_issue_healthy.
  unfold allAnswer, formQueries in *. simpl in *. health_cases; done.
Qed.

(** ** The success path *)

Lemma ltb_zero (n : nat) : Nat.ltb n 0 = false.
Proof. apply Nat.ltb_ge. lia. Qed.

(** What the feed is made of when all seven calls answer. *)
Lemma recentActivities_success o l (w : World (PaginatedResult ActivityEvent)) :
  allAnswer w activityQueries = true ->
  let prisma := database w in
  let total :=
    count everyRow (users prisma) + count everyRow (quotes prisma)
    + count everyRow (formSubmissions prisma)
    + count everyRow (newsletterSubscribers prisma)
    + count (fun e => String.eqb (event_eventType e) "checkout_completed")
            (analyticsEvents prisma) in
  recentActivities o l w
  = {| data :=
         slice 0 l
           (sort byTimestampDesc
              (List.map userActivity
                        (findMany everyRow user_createdAt o l (users prisma))
               ++ List.map quoteActivity (quoteRows l prisma))%list);
       total := total;
       offset := o;
       limit := l;
       hasMore := Nat.ltb (o + l) total |}.
Proof.
  intros Hall. unfold recentActivities, activityCounts.
  rewrite !(allAnswer_elem w activityQueries) by (done || set_solver).
  reflexivity.
Qed.

(** ** An empty database *)

Ltac empty_page Hall Hdb qs :=
  rewrite !(allAnswer_elem _ qs) by (done || set_solver);
  rewrite Hdb; cbn;
  unfold emptyPage, slice, findMany, quoteRows; cbn;
  rewrite ?drop_nil, ?take_nil, ?ltb_zero; cbn; rewrite ?take_nil;
  reflexivity.

Lemma recentActivities_empty o l (w : World (PaginatedResult ActivityEvent)) :
  allAnswer w activityQueries = true -> database w = emptyDatabase ->
  recentActivities o l w = emptyPage o l.
Proof.
  intros Hall Hdb. unfold recentActivities, activityCounts.
  empty_page Hall Hdb activityQueries.
Qed.

Lemma quotesPage_empty o l st (w : World (PaginatedResult Quote)) :
  allAnswer w quoteQueries = true -> database w = emptyDatabase ->
  quotesPage o l st w = emptyPage o l.
Proof.
  intros Hall Hdb. unfold quotesPage. empty_page Hall Hdb quoteQueries.
Qed.

Lemma newUsersPage_empty o l (w : World (PaginatedResult User)) :
  allAnswer w userQueries = true -> database w = emptyDatabase ->
  newUsersPage o l w = emptyPage o l.
Proof.
  intros Hall Hdb. unfold newUsersPage. empty_page Hall Hdb userQueries.
Qed.

Lemma newsletterPage_empty o l (w : World (PaginatedResult NewsletterSubscriber)) :
  allAnswer w newsletterQueries = true -> database w = emptyDatabase ->
  newsletterPage o l w = emptyPage o l.
Proof.
  intros Hall Hdb. unfold newsletterPage. empty_page Hall Hdb newsletterQueries.
Qed.

Lemma formsPage_empty o l (w : World (PaginatedResult FormSubmission)) :
  allAnswer w formQueries = true -> database w = emptyDatabase ->
  formsPage o l w = emptyPage o l.
Proof.
  intros Hall Hdb. unfold formsPage. empty_page Hall Hdb formQueries.
Qed.

(** A fetcher that yields the empty page whenever one of its calls fails
    and whenever the database is empty, seen through the cache. *)
Lemma getCachedQuery_failed_or_empty {T} now key (fetcher : Fetcher (PaginatedResult T))
  (qs : list Query) o l (w : World (PaginatedResult T)) :
  (forall w', allAnswer w' qs = false -> fetcher w' = emptyPage o l) ->
  (forall w', allAnswer w' qs = true -> database w' = emptyDatabase ->
              fetcher w' = emptyPage o l) ->
  misses now key w ->
  allAnswer w qs = false \/ database w = emptyDatabase ->
  (getCachedQuery now key fetcher CACHE_TTL.dashboard.realtime w).1 = emptyPage o l.
Proof.
  intros Hfail Hempty Hmiss Hcase. rewrite getCachedQuery_miss by exact Hmiss. simpl.
  destruct (allAnswer w qs) eqn:Hall; [|by apply Hfail].
  destruct Hcase as [?|Hdb]; [done | by apply Hempty].
Qed.

(** C9.  When one of the calls of a fetcher throws or times out, the
    fetcher does not reject: it returns
    [{ data: [], total: 0, offset, limit, hasMore: false }].  The same value
    is returned when all calls answer and the tables are empty, so the
    caller cannot tell the two apart.  This holds of the four per-entity
    fetchers and of the aggregator, on every call that is not served from
    the cache. *)
Theorem fetchers_failure_is_empty (now : Z) (o l : nat) (status : option string) :
  (forall w, misses now (CACHE_KEYS.dashboard.activities o l) w ->
     allAnswer w activityQueries = false \/ database w = emptyDatabase ->
     (getRecentActivitiesOptimized now o l w).1 = emptyPage o l)
  /\ (forall w, misses now (CACHE_KEYS.dashboard.quotes o l) w ->
        allAnswer w quoteQueries = false \/ database w = emptyDatabase ->
        (getQuotesOptimized now o l status w).1 = emptyPage o l)
  /\ (forall w, misses now (CACHE_KEYS.dashboard.users o l) w ->
        allAnswer w userQueries = false \/ database w = emptyDatabase ->
        (getNewUsersOptimized now o l w).1 = emptyPage o l)
  /\ (forall w, misses now (CACHE_KEYS.dashboard.newsletter o l) w ->
        allAnswer w newsletterQueries = false \/ database w = emptyDatabase ->
        (getNewsletterSubscribersOptimized now o l w).1 = emptyPage o l)
  /\ (forall w, misses now (CACHE_KEYS.dashboard.forms o l) w ->
        allAnswer w formQueries = false \/ database w = emptyDatabase ->
        (getFormSubmissionsOptimized now o l w).1 = emptyPage o l).
Proof.
  repeat apply conj; intros w Hmiss Hcase.
  - eapply getCachedQuery_failed_or_empty; eauto using recentActivities_failure, recentActivities_empty.
  - eapply getCachedQuery_failed_or_empty; eauto using quotesPage_failure, quotesPage_empty.
  - eapply getCachedQuery_failed_or_empty; eauto using newUsersPage_failure, newUsersPage_empty.
  - eapply getCachedQuery_failed_or_empty; eauto using newsletterPage_failure, newsletterPage_empty.
  - eapply getCachedQuery_failed_or_empty; eauto using formsPage_failure, formsPage_empty.
Qed.

Lemma fetchers_failure_is_empty_witness :
  (getRecentActivitiesOptimized 0 0 20
     (coldWorld configured busyDatabase (onlyFault UserCount Hangs))).1 = emptyPage 0 20
  /\ (getRecentActivitiesOptimized 0 0 20
        (coldWorld configured emptyDatabase allHealthy)).1 = emptyPage 0 20
  /\ (getQuotesOptimized 0 0 20 None
        (coldWorld configured busyDatabase
                   (onlyFault QuoteFindMany (Throws "connection reset")))).1
     = emptyPage 0 20
  /\ (getQuotesOptimized 0 0 20 None
        (coldWorld configured emptyDatabase allHealthy)).1 = emptyPage 0 20.
Proof.
  destruct (fetchers_failure_is_empty 0 0 20 None) as (Ha & Hq & _).
  split; [|split; [|split]].
  - apply Ha; [reflexivity | left; reflexivity].
  - apply Ha; [reflexivity | right; reflexivity].
  - apply Hq; [reflexivity | left; reflexivity].
  - apply Hq; [reflexivity | right; reflexivity].
Defined.

(** C1 (as amended).  When one (or more) of the seven calls issued by
    [getRecentActivitiesOptimized] throws or times out, the call still
    returns a result and not an error; that result is the empty page
    [{ data: [], total: 0, offset, limit, hasMore: false }]: every source is
    treated as empty, the ones that answered too. *)
Theorem getRecentActivitiesOptimized_failure (now : Z) (o l : nat)
  (w : World (PaginatedResult ActivityEvent)) (q : Query) :
  misses now (CACHE_KEYS.dashboard.activities o l) w ->
  q ∈ activityQueries ->
  faults w q <> Healthy ->
  (getRecentActivitiesOptimized now o l w).1 = emptyPage o l.
Proof.
  intros Hmiss Hq Hbad. unfold getRecentActivitiesOptimized.
  rewrite getCachedQuery_miss by exact Hmiss. simpl.
  apply recentActivities_failure. by apply (allAnswer_false w activityQueries q).
Qed.

Lemma getRecentActivitiesOptimized_failure_witness :
  (getRecentActivitiesOptimized 0 0 20
     (coldWorld configured busyDatabase (onlyFault QuoteRaw Hangs))).1 = emptyPage 0 20.
Proof.
  apply (getRecentActivitiesOptimized_failure 0 0 20 _ QuoteRaw).
  - reflexivity.
  - unfold activityQueries. set_solver.
  - vm_compute. discriminate.
Defined.

(** C1 (as stated) fails.  The quote query times out while the user query
    answers with the row of Ann and all five counts answer: the feed
    returned is empty, the event of Ann is not in it. *)
Lemma getRecentActivitiesOptimized_failure_cex :
  let w : World (PaginatedResult ActivityEvent) :=
    coldWorld configured busyDatabase (onlyFault QuoteRaw Hangs) in
  let r := (getRecentActivitiesOptimized 0 0 20 w).1 in
  withTimeout
    (issue (faults w UserFindMany)
           (Fulfilled (findMany everyRow user_createdAt 0 20 (users (database w)))))
    10000 = Fulfilled [ann]
  /\ isFulfilled (withTimeout (activityCounts w) 10000) = true
  /\ data r = []
  /\ userActivity ann ∉ data r.
Proof.
  vm_compute. repeat split. apply not_elem_of_nil.
Qed.

(** ** Sorting by a key, newest first *)

Section SortByKey.
Context {A : Type} (key : A -> Z).

Local Abbreviation cmp := (fun a b : A => (key b - key a)%Z).

Lemma sortInsert_Permutation (x : A) (l : list A) :
  Permutation (sortInsert cmp x l) (x :: l).
Proof.
  induction l as [|y l IH]; simpl; [done|].
  destruct (key y - key x <=? 0)%Z; [done|].
  rewrite IH. apply perm_swap.
Qed.

Lemma sort_Permutation (l : list A) : Permutation (sort cmp l) l.
Proof.
  induction l as [|x l IH]; simpl; [done|].
  rewrite sortInsert_Permutation. by constructor.
Qed.

Lemma sortInsert_sorted (x : A) (l : list A) :
  StronglySorted (newestFirst key) l ->
  StronglySorted (newestFirst key) (sortInsert cmp x l).
Proof.
  induction 1 as [|y l Hl IH Hy]; simpl.
  - repeat constructor.
  - destruct (Z.leb_spec (key y - key x) 0) as [Hle|Hgt].
    + constructor; [by constructor|].
      constructor; [unfold newestFirst; lia|].
      eapply Forall_impl; [exact Hy|]. unfold newestFirst. intros; lia.
    + constructor; [exact IH|].
      rewrite sortInsert_Permutation. constructor; [unfold newestFirst; lia | exact Hy].
Qed.

Lemma sort_sorted (l : list A) : StronglySorted (newestFirst key) (sort cmp l).
Proof.
  induction l as [|x l IH]; simpl; [constructor | by apply sortInsert_sorted].
Qed.

Lemma sortInsert_keyed (t : Z) (x : A) (l : list A) :
  keyed key t (sortInsert cmp x l) = keyed key t (x :: l).
Proof.
  induction l as [|y l IH]; simpl; [done|].
  destruct (Z.leb_spec (key y - key x) 0) as [Hle|Hgt]; [done|].
  unfold keyed in *. simpl in *. rewrite IH.
  destruct (Z.eqb_spec (key x) t), (Z.eqb_spec (key y) t); try done. lia.
Qed.

(** The sort is stable: elements with equal keys keep their order. *)
Lemma sort_keyed (t : Z) (l : list A) : keyed key t (sort cmp l) = keyed key t l.
Proof.
  induction l as [|x l IH]; simpl; [done|].
  rewrite sortInsert_keyed. unfold keyed in *. simpl. by rewrite IH.
Qed.

End SortByKey.

(** C3 (as amended).  When all calls answer, the feed is the concatenation
    of the mapped rows of the user query and of the mapped rows of the quote
    query, sorted descending by timestamp by a stable sort (so that events
    with equal timestamps keep their order in the concatenation, user events
    first: the output is a function of the rows), cut to its first [limit]
    entries. *)
Theorem getRecentActivitiesOptimized_feed (now : Z) (o l : nat)
  (w : World (PaginatedResult ActivityEvent)) :
  misses now (CACHE_KEYS.dashboard.activities o l) w ->
  allAnswer w activityQueries = true ->
  let events :=
    (List.map userActivity (findMany everyRow user_createdAt o l (users (database w)))
     ++ List.map quoteActivity (quoteRows l (database w)))%list in
  let feed := sort byTimestampDesc events in
  data (getRecentActivitiesOptimized now o l w).1 = take l feed
  /\ Permutation feed events
  /\ StronglySorted (newestFirst activity_timestamp) feed
  /\ forall t, keyed activity_timestamp t feed = keyed activity_timestamp t events.
Proof.
  intros Hmiss Hall events feed. unfold getRecentActivitiesOptimized.
  rewrite getCachedQuery_miss by exact Hmiss. simpl.
  rewrite recentActivities_success by exact Hall. simpl.
  split; [unfold slice; by rewrite drop_0, Nat.sub_0_r|].
  split; [apply (sort_Permutation activity_timestamp)|].
  split; [apply (sort_sorted activity_timestamp)|].
  intros t. apply (sort_keyed activity_timestamp).
Qed.

Lemma getRecentActivitiesOptimized_feed_witness :
  let w : World (PaginatedResult ActivityEvent) :=
    coldWorld configured busyDatabase allHealthy in
  let events :=
    (List.map userActivity (findMany everyRow user_createdAt 0 20 (users (database w)))
     ++ List.map quoteActivity (quoteRows 20 (database w)))%list in
  let feed := sort byTimestampDesc events in
  data (getRecentActivitiesOptimized 0 0 20 w).1 = take 20 feed
  /\ Permutation feed events
  /\ StronglySorted (newestFirst activity_timestamp) feed
  /\ forall t, keyed activity_timestamp t feed = keyed activity_timestamp t events.
Proof.
  apply (getRecentActivitiesOptimized_feed 0 0 20
           (coldWorld configured busyDatabase allHealthy)).
  - reflexivity.
  - reflexivity.
Defined.

(** C3 (as stated) fails, on the window and on the ties.
    Ann registered at 1000, quote B was created at 1500 and quote A at 2000.
    The second page of size one should hold quote B; the code returns quote
    A, the head of the first page.  (The window from 1 to 2 of what the code
    itself sorted is empty.)
    A quote created at the instant Ann registered comes after the event of
    Ann ([user_1]) whether its id sorts below [user_1] or above it: ties are
    left in the order of the concatenation, not broken by id. *)
Lemma getRecentActivitiesOptimized_feed_cex :
  let w : World (PaginatedResult ActivityEvent) :=
    coldWorld configured busyDatabase allHealthy in
  let r := (getRecentActivitiesOptimized 0 1 1 w).1 in
  let tied id :=
    List.map activity_id
      (data (getRecentActivitiesOptimized 0 0 20
               (coldWorld configured (tiedDatabase id) allHealthy)).1) in
  (List.map activity_id (data r) = ["quote_a"]
   /\ List.map activity_id (specFeed 1 1 (database w)) = ["quote_b"]
   /\ data r <> specFeed 1 1 (database w)
   /\ slice 1 2 (sort byTimestampDesc
                   (List.map userActivity
                             (findMany everyRow user_createdAt 1 1 (users (database w)))
                    ++ List.map quoteActivity (quoteRows 1 (database w)))%list) = [])
  /\ (tied "quote_t" = ["user_1"; "quote_t"]
      /\ List.map activity_id (specFeed 0 20 (tiedDatabase "quote_t"))
         = ["quote_t"; "user_1"]
      /\ tied "zz_quote" = ["user_1"; "zz_quote"]).
Proof. vm_compute. repeat split. discriminate. Qed.

(** C4: the code at two failing inputs.  With one form submission and
    nothing else, [total] is 1 and the page is empty, where
    [min(limit, total - offset)] is 1.  With two quotes and nothing else,
    offset 3 and limit 2, [total] is 2, not above the offset, and the page
    holds two events, where none is due. *)
Theorem getRecentActivitiesOptimized_length_mismatch :
  let r1 :=
    (getRecentActivitiesOptimized 0 0 20
       (coldWorld configured formOnlyDatabase allHealthy)).1 in
  let r2 :=
    (getRecentActivitiesOptimized 0 3 2
       (coldWorld configured quotesOnlyDatabase allHealthy)).1 in
  (total r1 = 1 /\ length (data r1) = 0
   /\ length (data r1) <> Nat.min (limit r1) (total r1 - offset r1))
  /\ (total r2 = 2 /\ offset r2 = 3 /\ length (data r2) = 2).
Proof. vm_compute. repeat split. discriminate. Qed.

(** ** Invalidation by pattern *)

(** A pattern without wildcard matches itself and nothing else. *)
Lemma globMatch_literal (p s : string) :
  isLiteral p = true -> globMatch p s = true -> s = p.
Proof.
  revert s. induction p as [|c p IH]; intros s Hlit Hm.
  - by destruct s.
  - simpl in Hlit. apply andb_prop in Hlit as [Hc Hp]. apply andb_prop in Hc as [Hs Hq].
    apply negb_true_iff in Hs, Hq. simpl in Hm. rewrite Hs in Hm.
    destruct s as [|d s]; [done|]. rewrite Hq in Hm. simpl in Hm.
    apply andb_prop in Hm as [Hcd Hm]. apply Ascii.eqb_eq in Hcd as ->.
    f_equal. by apply IH.
Qed.

Section Invalidation.
Context {V : Type}.
Implicit Type db : gmap string (Entry V).
Implicit Type w : World V.

Lemma KEYS_match now db pattern k :
  k ∈ Redis.KEYS now db pattern -> globMatch pattern k = true.
Proof.
  unfold Redis.KEYS. intros Hk.
  apply list_elem_of_fmap in Hk as ([k' e] & -> & Hk).
  apply elem_of_map_to_list, map_lookup_filter_Some in Hk as [_ Hk].
  simpl in *. by apply andb_prop in Hk as [? _].
Qed.

Lemma DEL_lookup_other db keys k :
  k ∉ keys -> Redis.DEL db keys !! k = db !! k.
Proof.
  unfold Redis.DEL. induction keys as [|k' keys IH]; simpl; [done|].
  intros [Hne Hk]%not_elem_of_cons. rewrite lookup_delete_ne by done. by apply IH.
Qed.

(** [invalidatePattern] with a pattern that has no wildcard touches no key
    but the pattern itself. *)
Lemma invalidatePattern_literal now pattern w k :
  isLiteral pattern = true -> k <> pattern ->
  server (cache.invalidatePattern now pattern w) !! k = server w !! k.
Proof.
  intros Hlit Hne. unfold cache.invalidatePattern.
  destruct (getRedis w) as [db|] eqn:Hdb; [|done].
  apply getRedis_server in Hdb as ->.
  destruct (Nat.ltb 0 _); [|done]. simpl.
  apply DEL_lookup_other. intros Hk%KEYS_match.
  by apply globMatch_literal in Hk.
Qed.

(** Whatever happens to the write, [updateFormSubmissionStatus] leaves in
    the cache every entry whose key is not the string [dashboard:forms]
    itself. *)
Lemma updateFormSubmissionStatus_spares now id status w k :
  k <> "dashboard:forms" ->
  server (updateFormSubmissionStatus now id status w).2 !! k = server w !! k.
Proof.
  intros Hne. unfold updateFormSubmissionStatus.
  destruct (withTimeout _ _) as [[updated table]|e]; [|done]. simpl.
  unfold invalidateDashboardCache. simpl.
  by rewrite invalidatePattern_literal.
Qed.

End Invalidation.

(** No page of form submissions is removed from the cache by
    [updateFormSubmissionStatus]. *)
Lemma updateFormSubmissionStatus_spares_pages {V} now id status (w : World V) o l :
  server (updateFormSubmissionStatus now id status w).2 !! CACHE_KEYS.dashboard.forms o l
  = server w !! CACHE_KEYS.dashboard.forms o l.
Proof.
  apply updateFormSubmissionStatus_spares.
  unfold CACHE_KEYS.dashboard.forms. simpl. discriminate.
Qed.

(** C2: the code at a failing input.  The first page of form submissions is
    cached at time 0; at time 1 the status of the submission is set to
    [read], and the write succeeds; at time 2 the entry is still in the
    cache and the page is served from it, with the old status, without a
    fetch. *)
Theorem updateFormSubmissionStatus_leaves_stale_page :
  let w0 : World (PaginatedResult FormSubmission) :=
    coldWorld configured formOnlyDatabase allHealthy in
  let w1 := (getFormSubmissionsOptimized 0 0 20 w0).2 in
  let u := updateFormSubmissionStatus 1 "form_1" "read" w1 in
  let r := getFormSubmissionsOptimized 2 0 20 u.2 in
  isFulfilled u.1 = true
  /\ List.map form_status (formSubmissions (database u.2)) = ["read"]
  /\ startsWith (CACHE_KEYS.dashboard.forms 0 20) "dashboard:forms" = true
  /\ server u.2 !! CACHE_KEYS.dashboard.forms 0 20
     = server w1 !! CACHE_KEYS.dashboard.forms 0 20
  /\ is_Some (server u.2 !! CACHE_KEYS.dashboard.forms 0 20)
  /\ List.map form_status (data r.1) = ["new"]
  /\ fetches r.2 = fetches w1.
Proof. vm_compute. repeat split. by eexists. Qed.

(** ** Cache keys *)

Lemma pretty_N_go_colon (x : N) (s : string) :
  hasColon s = false -> hasColon (pretty_N_go x s) = false.
Proof.
  revert s. induction (N.lt_wf_0 x) as [x _ IH]; intros s Hs.
  assert (x = 0 \/ 0 < x)%N as [->|Hpos] by lia.
  - by rewrite pretty_N_go_0.
  - rewrite pretty_N_go_step by done. apply IH; [by apply N.div_lt|].
    simpl. rewrite Hs. unfold pretty_N_char. by repeat case_match.
Qed.

(** A numeral has no colon. *)
Lemma pretty_nat_colon (n : nat) : hasColon (pretty n) = false.
Proof.
  unfold pretty, pretty_nat, pretty, pretty_N.
  case_decide; [done | by apply pretty_N_go_colon].
Qed.

(** Two texts cut at their first colon. *)
Lemma colon_split (s s' t t' : string) :
  hasColon s = false -> hasColon s' = false ->
  s +:+ ":" +:+ t = s' +:+ ":" +:+ t' -> s = s' /\ t = t'.
Proof.
  revert s'. induction s as [|c s IH]; intros [|c' s']; simpl; intros Hs Hs' Heq.
  - by injection Heq.
  - injection Heq as <- _. by rewrite Ascii.eqb_refl in Hs'.
  - injection Heq as -> _. by rewrite Ascii.eqb_refl in Hs.
  - injection Heq as -> Heq. apply orb_false_elim in Hs as [_ Hs].
    apply orb_false_elim in Hs' as [_ Hs'].
    destruct (IH s' Hs Hs' Heq) as [-> ->]. done.
Qed.

Lemma numerals_inj (o l o' l' : nat) :
  pretty o +:+ ":" +:+ pretty l = pretty o' +:+ ":" +:+ pretty l' ->
  o = o' /\ l = l'.
Proof.
  intros [Ho Hl]%colon_split; [|apply pretty_nat_colon..].
  split; by apply (inj pretty).
Qed.

(** Entity, offset and limit can be read back from a key: the keys of two
    fetchers never meet, and neither do two keys of one fetcher. *)
Lemma pageKeys_inj (i j : nat) (f g : nat -> nat -> string) (o l o' l' : nat) :
  pageKeys !! i = Some f -> pageKeys !! j = Some g ->
  f o l = g o' l' -> i = j /\ o = o' /\ l = l'.
Proof.
  unfold pageKeys. intros Hf Hg Heq.
  destruct i as [|[|[|[|[|i]]]]]; simpl in Hf; try discriminate Hf; injection Hf as <-.
  all: destruct j as [|[|[|[|[|j]]]]]; simpl in Hg; try discriminate Hg; injection Hg as <-.
  all: cbv [CACHE_KEYS.dashboard.activities CACHE_KEYS.dashboard.quotes
            CACHE_KEYS.dashboard.users CACHE_KEYS.dashboard.newsletter
            CACHE_KEYS.dashboard.forms] in Heq; simpl in Heq.
  all: try discriminate Heq.
  all: split; [reflexivity|]; apply numerals_inj; by simplify_eq.
Qed.

(** C5: the code at a failing input.  Two calls of [getQuotesOptimized] with
    the same offset and limit, without and with the status filter
    [pending], five seconds apart: the key is the same, so the second call
    is served the unfiltered page of the first (both quotes, total 2, no
    fetch), where the filtered query holds quote A alone. *)
Theorem getQuotesOptimized_filter_shares_key :
  let w0 : World (PaginatedResult Quote) :=
    coldWorld configured quotesOnlyDatabase allHealthy in
  let r0 := getQuotesOptimized 0 0 20 None w0 in
  let r1 := getQuotesOptimized 5 0 20 (Some "pending") r0.2 in
  List.map quote_id (data (quotesPage 0 20 (Some "pending") w0)) = ["quote_a"]
  /\ total (quotesPage 0 20 (Some "pending") w0) = 1
  /\ List.map quote_id (data r1.1) = ["quote_a"; "quote_b"]
  /\ total r1.1 = 2
  /\ fetches r1.2 = fetches r0.2.
Proof. vm_compute. repeat split. Qed.

(** ** The handler *)

(** C7 (as amended).  A request whose authorization header is missing, empty
    or does not start with [Bearer ], and whose host name contains neither
    [localhost] nor [127.0.0.1], is answered 401 [Unauthorized]; no fetcher
    runs: the answer does not depend on them and the state is untouched. *)
Theorem GET_unauthorized (W : Type)
  (activitiesOf : nat -> nat -> W -> outcome (PaginatedResult ActivityEvent) * W)
  (statsOf : W -> outcome DashboardStats * W)
  (quotesOf : nat -> nat -> W -> outcome (PaginatedResult Quote) * W)
  (newUsersOf : nat -> nat -> W -> outcome (PaginatedResult User) * W)
  (newsletterOf : nat -> nat -> W -> outcome (PaginatedResult NewsletterSubscriber) * W)
  (formsOf : nat -> nat -> W -> outcome (PaginatedResult FormSubmission) * W)
  (etagOf : ResponseData -> string)
  (timestamp : string) (elapsed : Z) (request : Request) (w : W) :
  (authorization request = None
   \/ exists h, authorization request = Some h /\ startsWith h "Bearer " = false) ->
  includes (hostname request) "localhost" = false ->
  includes (hostname request) "127.0.0.1" = false ->
  GET W activitiesOf statsOf quotesOf newUsersOf newsletterOf formsOf etagOf
      timestamp elapsed request w
  = (mkResponse 401 (ErrorBody "Unauthorized") [], w).
Proof.
  intros Hauth Hlocal Hloop. unfold GET.
  assert (unauthorized request = true) as ->; [|reflexivity].
  unfold unauthorized. rewrite Hlocal, Hloop. simpl. rewrite andb_true_r.
  destruct Hauth as [->|(h & -> & Hh)]; [reflexivity|].
  simpl. rewrite Hh. apply orb_true_r.
Qed.

Lemma GET_unauthorized_witness :
  probedGET "2025-12-20T00:00:00.000Z" 3
            (mkRequest "admin.example.com" 0 20 (Some "Basic YWRtaW4=") None) 0
  = (mkResponse 401 (ErrorBody "Unauthorized") [], 0).
Proof.
  apply GET_unauthorized.
  - right. eexists. split; reflexivity.
  - reflexivity.
  - reflexivity.
Defined.

(** C7 (as stated) fails.  A request with no credential at all whose host
    name contains [localhost], and a request to any host with the header
    [Bearer x], both get past the check: the six fetchers run and the answer
    is 200. *)
Lemma GET_unauthorized_cex :
  let local :=
    probedGET "2025-12-20T00:00:00.000Z" 3
              (mkRequest "localhost" 0 20 None None) 0 in
  let bearer :=
    probedGET "2025-12-20T00:00:00.000Z" 3
              (mkRequest "admin.example.com" 0 20 (Some "Bearer x") None) 0 in
  (status local.1 = 200 /\ local.2 = 6)
  /\ (status bearer.1 = 200 /\ bearer.2 = 6).
Proof. vm_compute. repeat split. Qed.

(** * Further properties *)

(** ** Glob patterns and the Redis commands *)

Lemma globMatch_star (s : string) : globMatch "*" s = true.
Proof. induction s as [|c s IH]; [reflexivity|]. simpl in *. exact IH. Qed.

(** A literal followed by a star matches the keys that start with the
    literal. *)
Lemma globMatch_prefix (p s : string) :
  isLiteral p = true -> globMatch (p +:+ "*") s = startsWith s p.
Proof.
  revert s. induction p as [|c p IH]; intros s Hlit.
  - change (EmptyString +:+ "*") with "*". rewrite (globMatch_star s). by destruct s.
  - simpl in Hlit. apply andb_prop in Hlit as [Hc Hp]. apply andb_prop in Hc as [Hs Hq].
    apply negb_true_iff in Hs, Hq.
    change (String c p +:+ "*") with (String c (p +:+ "*")).
    cbn [globMatch]. rewrite Hs.
    destruct s as [|d s]; [reflexivity|]. rewrite Hq. simpl. by rewrite IH.
Qed.

Lemma globMatch_self (p : string) : isLiteral p = true -> globMatch p p = true.
Proof.
  induction p as [|c p IH]; intros Hlit; [reflexivity|].
  simpl in Hlit. apply andb_prop in Hlit as [Hc Hp]. apply andb_prop in Hc as [Hs Hq].
  apply negb_true_iff in Hs, Hq. simpl. rewrite Hs, Hq, Ascii.eqb_refl. simpl. by apply IH.
Qed.

Lemma live_earlier {V} (now now' : Z) (e : Entry V) :
  (now <= now')%Z -> live now' e = true -> live now e = true.
Proof.
  unfold live. destruct (expiresAt e) as [t|]; [|done].
  intros Hle Hl. apply Z.ltb_lt in Hl. apply Z.ltb_lt. lia.
Qed.

Section RedisFacts.
Context {V : Type}.
Implicit Type db : gmap string (Entry V).
Implicit Type w : World V.

Lemma KEYS_elem now db pattern k :
  k ∈ Redis.KEYS now db pattern
  <-> exists e, db !! k = Some e /\ globMatch pattern k = true /\ live now e = true.
Proof.
  unfold Redis.KEYS. rewrite list_elem_of_fmap. split.
  - intros ([k' e] & -> & Hk).
    apply elem_of_map_to_list, map_lookup_filter_Some in Hk as [Hk Hm].
    simpl in *. apply andb_prop in Hm as [? ?]. by exists e.
  - intros (e & Hk & Hm & Hl). exists (k, e). split; [done|].
    apply elem_of_map_to_list, map_lookup_filter_Some. simpl. by rewrite Hm, Hl.
Qed.

Lemma DEL_lookup db keys k :
  Redis.DEL db keys !! k = if decide (k ∈ keys) then None else db !! k.
Proof.
  unfold Redis.DEL. induction keys as [|k' keys IH]; cbn [foldr].
  - destruct (decide (k ∈ [])) as [Hk|_]; [by apply elem_of_nil in Hk | done].
  - destruct (decide (k' = k)) as [->|Hne].
    + rewrite lookup_delete_eq. destruct (decide (k ∈ k :: keys)) as [_|Hk]; [done|].
      exfalso. apply Hk. left.
    + rewrite lookup_delete_ne by done. rewrite IH.
      destruct (decide (k ∈ keys)) as [Hin|Hout],
               (decide (k ∈ k' :: keys)) as [Hin'|Hout']; try done.
      * exfalso. apply Hout'. by right.
      * apply elem_of_cons in Hin' as [->|Hin']; done.
Qed.

(** Reading a key at [now'] after an invalidation at an earlier [now]. *)
Lemma invalidatePattern_get now now' pattern k w :
  (now <= now')%Z ->
  (cache.get now' k (cache.invalidatePattern now pattern w)).1
  = if globMatch pattern k then None else (cache.get now' k w).1.
Proof.
  intros Hle. unfold cache.invalidatePattern, cache.get.
  destruct (getRedis w) as [db|] eqn:Hdb; [|rewrite Hdb; by destruct (globMatch _ _)].
  assert (globMatch pattern k = true -> k ∉ Redis.KEYS now db pattern ->
          Redis.GET now' db k = None) as Hdead.
  { intros Hm Hk. unfold Redis.GET. destruct (db !! k) as [e|] eqn:He; [|done].
    destruct (live now' e) eqn:Hl; [|done]. exfalso. apply Hk, KEYS_elem.
    exists e. eauto using live_earlier. }
  destruct (Nat.ltb 0 _) eqn:Hlen.
  - rewrite getRedis_withServer, Hdb. simpl. unfold Redis.GET at 1.
    rewrite DEL_lookup. case_decide as Hk.
    + apply KEYS_match in Hk. by rewrite Hk.
    + destruct (globMatch pattern k) eqn:Hm; [|done].
      fold (Redis.GET now' db k). by apply Hdead.
  - rewrite Hdb. simpl. destruct (globMatch pattern k) eqn:Hm; [|done].
    apply Hdead; [done|]. apply Nat.ltb_ge in Hlen.
    destruct (Redis.KEYS now db pattern); [apply not_elem_of_nil | simpl in Hlen; lia].
Qed.

Lemma invalidatePattern_rest now pattern w :
  env (cache.invalidatePattern now pattern w) = env w
  /\ database (cache.invalidatePattern now pattern w) = database w
  /\ fetches (cache.invalidatePattern now pattern w) = fetches w.
Proof. unfold cache.invalidatePattern. by repeat case_match. Qed.

End RedisFacts.

(** ** The methods of [cache] *)

(** X1.  With the client configured and a positive TTL, [cache.get] after
    [cache.set] gives the value back until the TTL has run out and [null]
    from then on; every other key reads as before. *)
Theorem cache_set_then_get {V} (w : World V) (key k : string) (v : V) (ttl now now' : Z) :
  getRedis w <> None ->
  (0 < ttl)%Z ->
  (cache.get now' key (cache.set now key v (Some ttl) w)).1
  = (if (now' <? now + ttl)%Z then Some v else None)
  /\ (k <> key ->
      (cache.get now' k (cache.set now key v (Some ttl) w)).1 = (cache.get now' k w).1).
Proof.
  intros Hredis Httl. split; [by apply cache_get_set|]. intros Hne.
  unfold cache.get, cache.set. destruct (getRedis w) as [db|] eqn:Hdb; [|done].
  assert (truthy (Some ttl) = true) as ->.
  { cbv [truthy option_truthy Z_truthy]. destruct (Z.eqb_spec ttl 0); [lia | reflexivity]. }
  unfold Redis.SETEX; simpl. destruct (Z.ltb_spec 0 ttl); [|lia].
  rewrite getRedis_withServer, Hdb; simpl.
  unfold Redis.GET. by rewrite lookup_insert_ne.
Qed.

Lemma cache_set_then_get_witness :
  (cache.get 5 "k" (cache.set 0 "k" (JNum 7) (Some 10%Z) warmWorld)).1 = Some (JNum 7)
  /\ ("products:all" <> "k" ->
      (cache.get 5 "products:all" (cache.set 0 "k" (JNum 7) (Some 10%Z) warmWorld)).1
      = (cache.get 5 "products:all" warmWorld).1).
Proof.
  apply (cache_set_then_get warmWorld "k" "products:all" (JNum 7) 10 0 5).
  - vm_compute. discriminate.
  - lia.
Defined.

(** X2.  [cache.set] without a TTL, or with the TTL 0, stores the value for
    good: it is read back at every instant. *)
Theorem cache_set_without_ttl {V} (w : World V) (key : string) (v : V)
  (ttl : option Z) (now now' : Z) :
  getRedis w <> None ->
  ttl = None \/ ttl = Some 0%Z ->
  (cache.get now' key (cache.set now key v ttl w)).1 = Some v.
Proof.
  intros Hredis Httl. unfold cache.get, cache.set.
  destruct (getRedis w) as [db|] eqn:Hdb; [|done].
  assert (truthy ttl = false) as -> by (by destruct Httl as [->| ->]).
  rewrite getRedis_withServer, Hdb. simpl. unfold Redis.GET, Redis.SET.
  by rewrite lookup_insert_eq.
Qed.

Lemma cache_set_without_ttl_witness :
  (cache.get 1000000 "k" (cache.set 0 "k" (JNum 7) (Some 0%Z) warmWorld)).1
  = Some (JNum 7).
Proof.
  apply (cache_set_without_ttl warmWorld "k" (JNum 7) (Some 0%Z) 0 1000000).
  - vm_compute. discriminate.
  - by right.
Defined.

(** X3.  Without a URL, without a token, or with a URL that does not start
    with [https://], the cache is a pass-through: [get] answers [null], [set],
    [del] and [invalidatePattern] do nothing, and [getCachedQuery] runs the
    fetcher at every call and returns what it computed. *)
Theorem cache_disabled_is_passthrough {V} `{Truthy V} (w : World V) (now : Z)
  (key : string) (v : V) (ttl : option Z) (fetcher : Fetcher V) (seconds : Z) :
  UPSTASH_REDIS_REST_URL (env w) = None
  \/ UPSTASH_REDIS_REST_TOKEN (env w) = None
  \/ (exists url, UPSTASH_REDIS_REST_URL (env w) = Some url
                  /\ startsWith url "https://" = false) ->
  cache.get now key w = (None, w)
  /\ cache.set now key v ttl w = w
  /\ cache.del key w = w
  /\ cache.invalidatePattern now key w = w
  /\ getCachedQuery now key fetcher seconds w = (fetcher w, fetched w).
Proof.
  intros Hoff.
  assert (getRedis w = None) as Hnone.
  { unfold getRedis. destruct Hoff as [-> | [-> | (url & -> & Hurl)]].
    - reflexivity.
    - cbn. by rewrite orb_true_r.
    - case_match; [done|]. cbn. by rewrite Hurl. }
  assert (cache.get now key w = (None, w)) as Hget by (unfold cache.get; by rewrite Hnone).
  repeat apply conj; try done.
  - unfold cache.set. by rewrite Hnone.
  - unfold cache.del. by rewrite Hnone.
  - unfold cache.invalidatePattern. by rewrite Hnone.
  - rewrite getCachedQuery_miss by (by rewrite Hget).
    unfold cache.set. by rewrite getRedis_fetched, Hnone.
Qed.

Lemma cache_disabled_is_passthrough_witness :
  let w : World jsval := coldWorld plainHttp emptyDatabase allHealthy in
  let fetcher : Fetcher jsval := fun _ => JNum 7 in
  cache.get 0 "k" w = (None, w)
  /\ cache.set 0 "k" (JNum 7) (Some 10%Z) w = w
  /\ cache.del "k" w = w
  /\ cache.invalidatePattern 0 "k" w = w
  /\ getCachedQuery 0 "k" fetcher 10 w = (JNum 7, fetched w).
Proof.
  apply (cache_disabled_is_passthrough
           (coldWorld plainHttp emptyDatabase allHealthy) 0 "k" (JNum 7) (Some 10%Z)
           (fun _ => JNum 7) 10).
  right. right. eexists. split; reflexivity.
Defined.

(** X4.  After [cache.del] the key reads [null], at every instant; every
    other key reads as before. *)
Theorem cache_del_then_get {V} (w : World V) (key k : string) (now : Z) :
  (cache.get now k (cache.del key w)).1
  = if decide (k = key) then None else (cache.get now k w).1.
Proof.
  unfold cache.get, cache.del. destruct (getRedis w) as [db|] eqn:Hdb.
  - rewrite getRedis_withServer, Hdb. simpl. unfold Redis.GET, Redis.DEL. simpl.
    case_decide as Hk; [subst; by rewrite lookup_delete_eq|].
    by rewrite lookup_delete_ne.
  - rewrite Hdb. by case_decide.
Qed.

(** X5.  [cache.invalidatePattern(pattern)] at [now], for a pattern made of
    [*], [?] and characters that stand for themselves (no bracket class, no
    backslash): read at [now] or later, a key that matches the pattern is
    gone and a key that does not match reads as before; the database and
    the environment are left alone. *)
Theorem invalidatePattern_then_get {V} (w : World V) (pattern k : string) (now now' : Z) :
  isPlainGlob pattern = true ->
  (now <= now')%Z ->
  (cache.get now' k (cache.invalidatePattern now pattern w)).1
  = (if globMatch pattern k then None else (cache.get now' k w).1)
  /\ database (cache.invalidatePattern now pattern w) = database w
  /\ env (cache.invalidatePattern now pattern w) = env w.
Proof.
  intros _ Hle. split; [by apply invalidatePattern_get|].
  destruct (invalidatePattern_rest now pattern w) as (He & Hd & _). done.
Qed.

Lemma invalidatePattern_then_get_witness :
  (cache.get 7 "dashboard:quotes:0:20"
     (cache.invalidatePattern 5 "dashboard:quotes:*" warmWorld)).1
  = (if globMatch "dashboard:quotes:*" "dashboard:quotes:0:20" then None
     else (cache.get 7 "dashboard:quotes:0:20" warmWorld).1)
  /\ database (cache.invalidatePattern 5 "dashboard:quotes:*" warmWorld)
     = database warmWorld
  /\ env (cache.invalidatePattern 5 "dashboard:quotes:*" warmWorld) = env warmWorld.
Proof.
  apply (invalidatePattern_then_get warmWorld "dashboard:quotes:*"
           "dashboard:quotes:0:20" 5 7).
  - reflexivity.
  - lia.
Defined.

(** X6.  [invalidateDashboardCache()] without a pattern (or with the empty
    one) clears the dashboard: read at [now] or later, every key that starts
    with [dashboard:] is gone, the pages of the five fetchers among them,
    and every other key reads as before. *)
Theorem invalidateDashboardCache_default {V} (w : World V) (pattern : option string)
  (k : string) (now now' : Z) :
  pattern = None \/ pattern = Some EmptyString ->
  (now <= now')%Z ->
  (cache.get now' k (invalidateDashboardCache now pattern w)).1
  = (if startsWith k "dashboard:" then None else (cache.get now' k w).1)
  /\ forall i f o l, pageKeys !! i = Some f ->
       (cache.get now' (f o l) (invalidateDashboardCache now pattern w)).1 = None.
Proof.
  intros Hpat Hle.
  assert (forall k', (cache.get now' k' (invalidateDashboardCache now pattern w)).1
                     = if startsWith k' "dashboard:" then None
                       else (cache.get now' k' w).1) as Hall.
  { intros k'. unfold invalidateDashboardCache.
    assert (truthy pattern = false) as -> by (by destruct Hpat as [->| ->]).
    simpl. rewrite invalidatePattern_get by done.
    pose proof (globMatch_prefix "dashboard:" k' eq_refl) as Hglob.
    change ("dashboard:" +:+ "*") with "dashboard:*" in Hglob. by rewrite Hglob. }
  split; [apply Hall|]. intros i f o l Hf. rewrite Hall.
  unfold pageKeys in Hf.
  destruct i as [|[|[|[|[|i]]]]]; simpl in Hf; try discriminate Hf; by injection Hf as <-.
Qed.

Lemma invalidateDashboardCache_default_witness :
  (cache.get 7 "products:all" (invalidateDashboardCache 5 None warmWorld)).1
  = (if startsWith "products:all" "dashboard:" then None
     else (cache.get 7 "products:all" warmWorld).1)
  /\ forall i f o l, pageKeys !! i = Some f ->
       (cache.get 7 (f o l) (invalidateDashboardCache 5 None warmWorld)).1 = None.
Proof.
  apply (invalidateDashboardCache_default warmWorld None "products:all" 5 7).
  - by left.
  - lia.
Defined.

(** X7.  [invalidateAllDashboardCache()] hands the pattern [dashboard:] to
    the cache, a pattern without wildcard: no entry is removed but the one
    whose key is [dashboard:] itself.  The pages of the five fetchers and
    the statistics stay where they are. *)
Theorem invalidateAllDashboardCache_keeps_pages {V} (w : World V) (now : Z) (k : string) :
  (if decide (k = "dashboard:")
   then (cache.get now k (invalidateAllDashboardCache now w)).1 = None
   else server (invalidateAllDashboardCache now w) !! k = server w !! k)
  /\ server (invalidateAllDashboardCache now w) !! CACHE_KEYS.dashboard.stats
     = server w !! CACHE_KEYS.dashboard.stats
  /\ forall i f o l, pageKeys !! i = Some f ->
       server (invalidateAllDashboardCache now w) !! f o l = server w !! f o l.
Proof.
  assert (forall k', k' <> "dashboard:" ->
            server (invalidateAllDashboardCache now w) !! k' = server w !! k') as Hkeep.
  { intros k' Hne. unfold invalidateAllDashboardCache, invalidateDashboardCache. simpl.
    by apply invalidatePattern_literal. }
  split.
  { case_decide as Hk; [|by apply Hkeep]. subst k.
    unfold invalidateAllDashboardCache, invalidateDashboardCache. simpl.
    rewrite invalidatePattern_get by lia. by rewrite (globMatch_self "dashboard:"). }
  split; [by apply Hkeep|].
  intros i f o l Hf. apply Hkeep. unfold pageKeys in Hf.
  destruct i as [|[|[|[|[|i]]]]]; simpl in Hf; try discriminate Hf; injection Hf as <-.
  all: cbv [CACHE_KEYS.dashboard.activities CACHE_KEYS.dashboard.quotes
            CACHE_KEYS.dashboard.users CACHE_KEYS.dashboard.newsletter
            CACHE_KEYS.dashboard.forms]; simpl; discriminate.
Qed.

(** X8.  The script [clearCache] removes the entry of [companies:all] and no
    other: read at [now] or later that key is gone, and every other entry
    is where it was. *)
Theorem clearCache_removes_companies {V} (w : World V) (now now' : Z) (k : string) :
  (now <= now')%Z ->
  (cache.get now' CACHE_KEYS.companies (clearCache now w)).1 = None
  /\ (k <> CACHE_KEYS.companies -> server (clearCache now w) !! k = server w !! k).
Proof.
  intros Hle. unfold clearCache, CACHE_KEYS.companies. split.
  - rewrite invalidatePattern_get by done.
    by rewrite (globMatch_self "companies:all").
  - intros Hne. by apply invalidatePattern_literal.
Qed.

Lemma clearCache_removes_companies_witness :
  (cache.get 7 CACHE_KEYS.companies (clearCache 5 warmWorld)).1 = None
  /\ ("products:all" <> CACHE_KEYS.companies ->
      server (clearCache 5 warmWorld) !! "products:all" = server warmWorld !! "products:all").
Proof.
  apply (clearCache_removes_companies warmWorld 5 7 "products:all"). lia.
Defined.

(** ** [getCachedQuery] and the rest of the world *)

Lemma cache_set_frame {V} (w : World V) (key k : string) (v : V) (ttl : option Z) (now : Z) :
  (k <> key -> server (cache.set now key v ttl w) !! k = server w !! k)
  /\ database (cache.set now key v ttl w) = database w
  /\ env (cache.set now key v ttl w) = env w.
Proof.
  unfold cache.set, Redis.SETEX, Redis.SET.
  destruct (getRedis w) as [db|] eqn:Hdb; [|done].
  apply getRedis_server in Hdb as ->.
  repeat case_match; simplify_eq; simpl; repeat split; try done.
  all: intros Hne; by rewrite lookup_insert_ne.
Qed.

Lemma cache_get_withDatabase {V} (w : World V) (d : Database) (key : string) (now : Z) :
  (cache.get now key (withDatabase w d)).1 = (cache.get now key w).1.
Proof.
  unfold cache.get. change (getRedis (withDatabase w d)) with (getRedis w).
  by destruct (getRedis w).
Qed.

(** X9.  [getCachedQuery] reads and writes its own key only: the entry of
    every other key, the database and the environment are as they were. *)
Theorem getCachedQuery_keeps_the_rest {V} `{Truthy V} (w : World V) (key k : string)
  (fetcher : Fetcher V) (ttl now : Z) :
  k <> key ->
  server (getCachedQuery now key fetcher ttl w).2 !! k = server w !! k
  /\ database (getCachedQuery now key fetcher ttl w).2 = database w
  /\ env (getCachedQuery now key fetcher ttl w).2 = env w.
Proof.
  intros Hne. destruct (truthy (cache.get now key w).1) eqn:Hget.
  - destruct (cache.get now key w).1 as [v|] eqn:Hv; [|done].
    assert (truthy v = true) as Htrue by exact Hget.
    by rewrite (getCachedQuery_hit now key fetcher ttl w v Hv Htrue).
  - rewrite getCachedQuery_miss by done. simpl.
    destruct (cache_set_frame (fetched w) key k (fetcher w) (Some ttl) now)
      as (Hs & Hd & He).
    rewrite Hs, Hd, He by done. done.
Qed.

Lemma getCachedQuery_keeps_the_rest_witness :
  let r := getCachedQuery 0 "k" (fun _ => JNum 7) 10 warmWorld in
  server r.2 !! "products:all" = server warmWorld !! "products:all"
  /\ database r.2 = database warmWorld
  /\ env r.2 = env warmWorld.
Proof.
  apply (getCachedQuery_keeps_the_rest warmWorld "k" "products:all" (fun _ => JNum 7) 10 0).
  discriminate.
Defined.

(** X10.  What a call has stored is what the next calls get for as long as
    the TTL runs, whatever has become of the database in between and
    whichever fetcher and TTL the next call passes: a change of the data is
    not seen before the entry expires. *)
Theorem getCachedQuery_serves_stored {V} `{Truthy V} (w : World V) (key : string)
  (fetcher fetcher' : Fetcher V) (ttl ttl' t0 t1 : Z) (d' : Database) :
  getRedis w <> None ->
  (0 < ttl)%Z ->
  misses t0 key w ->
  truthy (fetcher w) = true ->
  (t0 <= t1 < t0 + ttl)%Z ->
  let w1 := (getCachedQuery t0 key fetcher ttl w).2 in
  getCachedQuery t1 key fetcher' ttl' (withDatabase w1 d')
  = (fetcher w, withDatabase w1 d').
Proof.
  intros Hredis Httl Hmiss Hv [H01 H1]. unfold misses in Hmiss. cbv zeta.
  rewrite (getCachedQuery_miss t0 key fetcher ttl w Hmiss). simpl.
  apply getCachedQuery_hit; [|done].
  rewrite cache_get_withDatabase, cache_get_set by done.
  destruct (Z.ltb_spec t1 (t0 + ttl)); [done | lia].
Qed.

Lemma getCachedQuery_serves_stored_witness :
  let w : World (PaginatedResult Quote) :=
    coldWorld configured quotesOnlyDatabase allHealthy in
  let w1 := (getCachedQuery 0 "dashboard:quotes:0:20" (quotesPage 0 20 None) 10 w).2 in
  getCachedQuery 9 "dashboard:quotes:0:20" (quotesPage 0 20 None) 10
                 (withDatabase w1 emptyDatabase)
  = (quotesPage 0 20 None w, withDatabase w1 emptyDatabase).
Proof.
  apply (getCachedQuery_serves_stored
           (coldWorld configured quotesOnlyDatabase allHealthy) "dashboard:quotes:0:20"
           (quotesPage 0 20 None) (quotesPage 0 20 None) 10 10 0 9 emptyDatabase).
  - vm_compute. discriminate.
  - lia.
  - reflexivity.
  - reflexivity.
  - lia.
Defined.

(** ** Pages of one table *)

Section FindMany.
Context {R : Type} (p : R -> bool) (key : R -> Z).
Implicit Type table : list R.

Lemma length_sort (cmp : R -> R -> Z) (l : list R) : length (sort cmp l) = length l.
Proof.
  induction l as [|x l IH]; simpl; [done|]. rewrite <- IH.
  generalize (sort cmp l). intros s. induction s as [|y s IHs]; simpl; [done|].
  destruct (cmp x y <=? 0)%Z; simpl; [done | by rewrite IHs].
Qed.

Lemma findMany_length (skip n : nat) table :
  length (findMany p key skip n table) = Nat.min n (count p table - skip).
Proof. unfold findMany, count. by rewrite length_take, length_drop, length_sort. Qed.

(** Two pages in a row make one page. *)
Lemma findMany_pages (skip n m : nat) table :
  (findMany p key skip n table ++ findMany p key (skip + n) m table)%list
  = findMany p key skip (n + m) table.
Proof. unfold findMany. by rewrite <- drop_drop, take_take_drop. Qed.

Lemma findMany_rows (skip n : nat) table (x : R) :
  x ∈ findMany p key skip n table -> p x = true /\ x ∈ table.
Proof.
  unfold findMany. intros Hx.
  apply subseteq_take, subseteq_drop in Hx.
  rewrite (sort_Permutation key) in Hx.
  apply list_elem_of_In, filter_In in Hx as [Hx Hp]. by apply list_elem_of_In in Hx.
Qed.

Lemma StronglySorted_take {A} (Rel : A -> A -> Prop) (n : nat) (l : list A) :
  StronglySorted Rel l -> StronglySorted Rel (take n l).
Proof.
  intros Hl. revert n. induction Hl as [|x l Hl IH Hx]; intros [|n]; simpl;
    try constructor; [apply IH | by apply Forall_take].
Qed.

Lemma StronglySorted_drop {A} (Rel : A -> A -> Prop) (n : nat) (l : list A) :
  StronglySorted Rel l -> StronglySorted Rel (drop n l).
Proof.
  intros Hl. revert n. induction Hl as [|x l Hl IH Hx]; intros [|n]; simpl;
    try constructor; done.
Qed.

Lemma findMany_sorted (skip n : nat) table :
  StronglySorted (newestFirst key) (findMany p key skip n table).
Proof.
  unfold findMany. apply StronglySorted_take, StronglySorted_drop, (sort_sorted key).
Qed.

End FindMany.

(** What each per-entity fetcher computes when both of its calls answer. *)
Lemma quotesPage_success o l st (w : World (PaginatedResult Quote)) :
  allAnswer w quoteQueries = true ->
  quotesPage o l st w
  = {| data := findMany (statusFilter st) quote_createdAt o l (quotes (database w));
       total := count (statusFilter st) (quotes (database w));
       offset := o;
       limit := l;
       hasMore := Nat.ltb (o + l) (count (statusFilter st) (quotes (database w))) |}.
Proof.
  intros Hall. unfold quotesPage.
  rewrite !(allAnswer_elem w quoteQueries) by (done || set_solver). reflexivity.
Qed.

Lemma newUsersPage_success o l (w : World (PaginatedResult User)) :
  allAnswer w userQueries = true ->
  newUsersPage o l w
  = {| data := findMany isCustomer user_createdAt o l (users (database w));
       total := count isCustomer (users (database w));
       offset := o;
       limit := l;
       hasMore := Nat.ltb (o + l) (count isCustomer (users (database w))) |}.
Proof.
  intros Hall. unfold newUsersPage.
  rewrite !(allAnswer_elem w userQueries) by (done || set_solver). reflexivity.
Qed.

Lemma newsletterPage_success o l (w : World (PaginatedResult NewsletterSubscriber)) :
  allAnswer w newsletterQueries = true ->
  newsletterPage o l w
  = {| data := findMany everyRow sub_subscribedAt o l (newsletterSubscribers (database w));
       total := count everyRow (newsletterSubscribers (database w));
       offset := o;
       limit := l;
       hasMore := Nat.ltb (o + l) (count everyRow (newsletterSubscribers (database w))) |}.
Proof.
  intros Hall. unfold newsletterPage.
  rewrite !(allAnswer_elem w newsletterQueries) by (done || set_solver). reflexivity.
Qed.

Lemma formsPage_success o l (w : World (PaginatedResult FormSubmission)) :
  allAnswer w formQueries = true ->
  formsPage o l w
  = {| data := findMany everyRow form_submittedAt o l (formSubmissions (database w));
       total := count everyRow (formSubmissions (database w));
       offset := o;
       limit := l;
       hasMore := Nat.ltb (o + l) (count everyRow (formSubmissions (database w))) |}.
Proof.
  intros Hall. unfold formsPage.
  rewrite !(allAnswer_elem w formQueries) by (done || set_solver). reflexivity.
Qed.

(** ** The per-entity fetchers on the success path *)

(** X11.  When both calls of a per-entity fetcher answer and the result is
    not served from the cache, [total] is the number of rows that pass the
    fetcher's filter and the page holds [min(limit, total - offset)] rows
    ([total - offset] read as 0 when the offset is beyond the total). *)
Theorem per_entity_page_length (now : Z) (o l : nat) (status : option string) :
  (forall w, misses now (CACHE_KEYS.dashboard.quotes o l) w ->
     allAnswer w quoteQueries = true ->
     let r := (getQuotesOptimized now o l status w).1 in
     total r = count (statusFilter status) (quotes (database w))
     /\ length (data r) = Nat.min l (total r - o))
  /\ (forall w, misses now (CACHE_KEYS.dashboard.users o l) w ->
        allAnswer w userQueries = true ->
        let r := (getNewUsersOptimized now o l w).1 in
        total r = count isCustomer (users (database w))
        /\ length (data r) = Nat.min l (total r - o))
  /\ (forall w, misses now (CACHE_KEYS.dashboard.newsletter o l) w ->
        allAnswer w newsletterQueries = true ->
        let r := (getNewsletterSubscribersOptimized now o l w).1 in
        total r = length (newsletterSubscribers (database w))
        /\ length (data r) = Nat.min l (total r - o))
  /\ (forall w, misses now (CACHE_KEYS.dashboard.forms o l) w ->
        allAnswer w formQueries = true ->
        let r := (getFormSubmissionsOptimized now o l w).1 in
        total r = length (formSubmissions (database w))
        /\ length (data r) = Nat.min l (total r - o)).
Proof.
  repeat apply conj; intros w Hmiss Hall; cbv zeta.
  - unfold getQuotesOptimized. rewrite getCachedQuery_miss by exact Hmiss. simpl.
    rewrite quotesPage_success by exact Hall. simpl. split; [done | apply findMany_length].
  - unfold getNewUsersOptimized. rewrite getCachedQuery_miss by exact Hmiss. simpl.
    rewrite newUsersPage_success by exact Hall. simpl.
    split; [done | apply findMany_length].
  - unfold getNewsletterSubscribersOptimized.
    rewrite getCachedQuery_miss by exact Hmiss. simpl.
    rewrite newsletterPage_success by exact Hall. simpl.
    split; [|apply findMany_length]. unfold count, everyRow.
    by rewrite (forallb_filter_id _ _ (proj2 (forallb_forall _ _) (fun _ _ => eq_refl))).
  - unfold getFormSubmissionsOptimized.
    rewrite getCachedQuery_miss by exact Hmiss. simpl.
    rewrite formsPage_success by exact Hall. simpl.
    split; [|apply findMany_length]. unfold count, everyRow.
    by rewrite (forallb_filter_id _ _ (proj2 (forallb_forall _ _) (fun _ _ => eq_refl))).
Qed.

Lemma per_entity_page_length_witness :
  (let r := (getQuotesOptimized 0 1 5 (Some "pending")
               (coldWorld configured quotesOnlyDatabase allHealthy)).1 in
   total r = count (statusFilter (Some "pending")) (quotes quotesOnlyDatabase)
   /\ length (data r) = Nat.min 5 (total r - 1))
  /\ (let r := (getFormSubmissionsOptimized 0 0 5
                 (coldWorld configured formOnlyDatabase allHealthy)).1 in
      total r = length (formSubmissions formOnlyDatabase)
      /\ length (data r) = Nat.min 5 (total r - 0)).
Proof.
  destruct (per_entity_page_length 0 1 5 (Some "pending")) as (Hq & _).
  destruct (per_entity_page_length 0 0 5 None) as (_ & _ & _ & Hf).
  split.
  - apply (Hq (coldWorld configured quotesOnlyDatabase allHealthy)); reflexivity.
  - apply (Hf (coldWorld configured formOnlyDatabase allHealthy)); reflexivity.
Defined.

Lemma count_everyRow {R} (table : list R) : count everyRow table = length table.
Proof. unfold count, everyRow. induction table; simpl; congruence. Qed.

(** X12.  A page of quotes that is computed, not read from the cache, holds
    rows of the quote table only, newest first.  With a status given, every
    row has that status and [total] counts the quotes of that status; with
    no status, or the empty string, nothing is filtered and [total] is the
    size of the table. *)
Theorem getQuotesOptimized_rows (now : Z) (o l : nat) (status : option string)
  (w : World (PaginatedResult Quote)) :
  misses now (CACHE_KEYS.dashboard.quotes o l) w ->
  allAnswer w quoteQueries = true ->
  let r := (getQuotesOptimized now o l status w).1 in
  (forall q, q ∈ data r -> q ∈ quotes (database w))
  /\ StronglySorted (newestFirst quote_createdAt) (data r)
  /\ (forall s, status = Some s -> s <> EmptyString ->
        (forall q, q ∈ data r -> quote_status q = s)
        /\ total r = count (fun q => String.eqb (quote_status q) s) (quotes (database w)))
  /\ (status = None \/ status = Some EmptyString ->
        total r = length (quotes (database w))).
Proof.
  intros Hmiss Hall. cbv zeta. unfold getQuotesOptimized.
  rewrite getCachedQuery_miss by exact Hmiss. simpl.
  rewrite quotesPage_success by exact Hall. simpl.
  split; [intros q Hq; by apply findMany_rows in Hq as [_ ?]|].
  split; [apply findMany_sorted|].
  split.
  - intros s -> Hs.
    assert (statusFilter (Some s) = fun q => String.eqb (quote_status q) s) as Hfilter.
    { unfold statusFilter. cbv [truthy option_truthy string_truthy].
      destruct (String.eqb_spec s EmptyString); [done | reflexivity]. }
    rewrite Hfilter. split; [|done].
    intros q Hq. apply findMany_rows in Hq as [Hq _]. by apply String.eqb_eq in Hq.
  - intros Hnone.
    assert (statusFilter status = everyRow) as ->
      by (by destruct Hnone as [->| ->]).
    apply count_everyRow.
Qed.

Lemma getQuotesOptimized_rows_witness :
  let w : World (PaginatedResult Quote) :=
    coldWorld configured quotesOnlyDatabase allHealthy in
  let r := (getQuotesOptimized 0 0 20 (Some "pending") w).1 in
  (forall q, q ∈ data r -> q ∈ quotes (database w))
  /\ StronglySorted (newestFirst quote_createdAt) (data r)
  /\ (forall s, Some "pending" = Some s -> s <> EmptyString ->
        (forall q, q ∈ data r -> quote_status q = s)
        /\ total r = count (fun q => String.eqb (quote_status q) s) (quotes (database w)))
  /\ (Some "pending" = None \/ Some "pending" = Some EmptyString ->
        total r = length (quotes (database w))).
Proof.
  apply (getQuotesOptimized_rows 0 0 20 (Some "pending")
           (coldWorld configured quotesOnlyDatabase allHealthy)); reflexivity.
Defined.

(** X13.  A page of new users that is computed holds customers only, taken
    from the user table, newest first, and [total] counts the customers, not
    the users. *)
Theorem getNewUsersOptimized_customers (now : Z) (o l : nat)
  (w : World (PaginatedResult User)) :
  misses now (CACHE_KEYS.dashboard.users o l) w ->
  allAnswer w userQueries = true ->
  let r := (getNewUsersOptimized now o l w).1 in
  (forall u, u ∈ data r -> user_role u = "customer" /\ u ∈ users (database w))
  /\ StronglySorted (newestFirst user_createdAt) (data r)
  /\ total r = count isCustomer (users (database w))
  /\ total r <= length (users (database w)).
Proof.
  intros Hmiss Hall. cbv zeta. unfold getNewUsersOptimized.
  rewrite getCachedQuery_miss by exact Hmiss. simpl.
  rewrite newUsersPage_success by exact Hall. simpl.
  split.
  { intros u Hu. apply findMany_rows in Hu as [Hrole Hu]. split; [|done].
    by apply String.eqb_eq in Hrole. }
  split; [apply findMany_sorted|]. split; [done|].
  unfold count. apply filter_length_le.
Qed.

Lemma getNewUsersOptimized_customers_witness :
  let w : World (PaginatedResult User) :=
    coldWorld configured busyDatabase allHealthy in
  let r := (getNewUsersOptimized 0 0 20 w).1 in
  (forall u, u ∈ data r -> user_role u = "customer" /\ u ∈ users (database w))
  /\ StronglySorted (newestFirst user_createdAt) (data r)
  /\ total r = count isCustomer (users (database w))
  /\ total r <= length (users (database w)).
Proof.
  apply (getNewUsersOptimized_customers 0 0 20
           (coldWorld configured busyDatabase allHealthy)); reflexivity.
Defined.

(** ** Pages in a row *)

(** A miss returns what the fetcher computes and leaves the database and the
    state of its calls alone. *)
Lemma getCachedQuery_computed {V} `{Truthy V} (w : World V) (key : string)
  (fetcher : Fetcher V) (ttl now : Z) :
  misses now key w ->
  (getCachedQuery now key fetcher ttl w).1 = fetcher w
  /\ database (getCachedQuery now key fetcher ttl w).2 = database w
  /\ faults (getCachedQuery now key fetcher ttl w).2 = faults w.
Proof.
  intros Hmiss. rewrite getCachedQuery_miss by exact Hmiss. simpl.
  unfold cache.set. by repeat case_match.
Qed.

Section PagesInARow.
Context {T : Type} (p : T -> bool) (key : T -> Z) (rows : Database -> list T).
Context (qs : list Query) (fetcher : nat -> nat -> Fetcher (PaginatedResult T)).
Context (keyOf : nat -> nat -> string) (ttl : Z).
Hypothesis Hpager : pagerOf p key rows qs fetcher.

Local Abbreviation get :=
  (fun (t : Z) (o l : nat) (w : World (PaginatedResult T)) =>
     getCachedQuery t (keyOf o l) (fetcher o l) ttl w).

Lemma allAnswer_after now o l (w : World (PaginatedResult T)) :
  misses now (keyOf o l) w ->
  allAnswer (get now o l w).2 qs = allAnswer w qs
  /\ database (get now o l w).2 = database w.
Proof.
  intros Hmiss.
  destruct (getCachedQuery_computed w (keyOf o l) (fetcher o l) ttl now Hmiss)
    as (_ & Hd & Hf).
  split; [|done]. unfold allAnswer. by rewrite Hf.
Qed.

Lemma pagerOf_compose : pagesCompose get keyOf qs key rows.
Proof.
  intros t1 t2 t3 o l m w _ Hall Hm1 r1 Hm2 r2 Hm3 r3.
  destruct (allAnswer_after t1 o l w Hm1) as [Hall1 Hd1]. fold r1 in Hall1, Hd1.
  destruct (allAnswer_after t2 (o + l) m r1.2 Hm2) as [Hall2 Hd2]. fold r2 in Hall2, Hd2.
  rewrite Hall in Hall1. rewrite Hall1 in Hall2.
  unfold r1, r2, r3.
  rewrite (proj1 (getCachedQuery_computed w _ _ ttl t1 Hm1)).
  rewrite (proj1 (getCachedQuery_computed _ _ _ ttl t2 Hm2)).
  rewrite (proj1 (getCachedQuery_computed _ _ _ ttl t3 Hm3)).
  destruct (Hpager o l w Hall) as (-> & -> & _).
  destruct (Hpager (o + l) m _ Hall1) as (-> & -> & _).
  destruct (Hpager o (l + m) _ Hall2) as (-> & _ & _).
  fold r1 r2. rewrite Hd2, Hd1. split; [apply findMany_pages | done].
Qed.

Lemma pagerOf_hasMore : hasMoreMeansNextPage get keyOf qs.
Proof.
  intros t1 t2 o l w Hl Hall Hm1 r1 Hm2 r2.
  destruct (allAnswer_after t1 o l w Hm1) as [Hall1 Hd1]. fold r1 in Hall1, Hd1.
  rewrite Hall in Hall1. unfold r1, r2.
  rewrite (proj1 (getCachedQuery_computed w _ _ ttl t1 Hm1)).
  rewrite (proj1 (getCachedQuery_computed _ _ _ ttl t2 Hm2)).
  destruct (Hpager o l w Hall) as (_ & _ & ->).
  destruct (Hpager (o + l) l _ Hall1) as (-> & _ & _).
  fold r1. rewrite Hd1. rewrite Nat.ltb_lt.
  pose proof (findMany_length p key (o + l) l (rows (database w))) as Hlen.
  destruct (findMany p key (o + l) l (rows (database w))) as [|x xs]; simpl in Hlen.
  - split; [lia | done].
  - split; [done | lia].
Qed.

End PagesInARow.

Lemma quotesPage_pager (status : option string) :
  pagerOf (statusFilter status) quote_createdAt quotes quoteQueries
          (fun o l => quotesPage o l status).
Proof. intros o l w Hall. by rewrite quotesPage_success. Qed.

Lemma newUsersPage_pager :
  pagerOf isCustomer user_createdAt users userQueries newUsersPage.
Proof. intros o l w Hall. by rewrite newUsersPage_success. Qed.

Lemma newsletterPage_pager :
  pagerOf everyRow sub_subscribedAt newsletterSubscribers newsletterQueries newsletterPage.
Proof. intros o l w Hall. by rewrite newsletterPage_success. Qed.

Lemma formsPage_pager :
  pagerOf everyRow form_submittedAt formSubmissions formQueries formsPage.
Proof. intros o l w Hall. by rewrite formsPage_success. Qed.

(** X14.  For each of the four per-entity fetchers, on a table no two rows
    of which have the same sort date ([createdAt], [subscribedAt],
    [submittedAt]), a computed page followed by the computed page that
    starts where it ends is the computed page that spans both, and both
    report the same total: nothing is lost or doubled between two pages as
    long as the table does not change. *)
Theorem per_entity_pages_compose (status : option string) :
  pagesCompose (fun t o l => getQuotesOptimized t o l status)
               CACHE_KEYS.dashboard.quotes quoteQueries quote_createdAt quotes
  /\ pagesCompose getNewUsersOptimized CACHE_KEYS.dashboard.users userQueries
                  user_createdAt users
  /\ pagesCompose getNewsletterSubscribersOptimized CACHE_KEYS.dashboard.newsletter
                  newsletterQueries sub_subscribedAt newsletterSubscribers
  /\ pagesCompose getFormSubmissionsOptimized CACHE_KEYS.dashboard.forms formQueries
                  form_submittedAt formSubmissions.
Proof.
  repeat apply conj.
  - apply (pagerOf_compose _ _ _ _ _ _ _ (quotesPage_pager status)).
  - apply (pagerOf_compose _ _ _ _ _ _ _ newUsersPage_pager).
  - apply (pagerOf_compose _ _ _ _ _ _ _ newsletterPage_pager).
  - apply (pagerOf_compose _ _ _ _ _ _ _ formsPage_pager).
Qed.

(** X15.  For each of the four per-entity fetchers and every limit above 0,
    [hasMore] of a computed page is true exactly when the next page of the
    same size, computed in turn, is not empty. *)
Theorem per_entity_hasMore_next_page (status : option string) :
  hasMoreMeansNextPage (fun t o l => getQuotesOptimized t o l status)
                       CACHE_KEYS.dashboard.quotes quoteQueries
  /\ hasMoreMeansNextPage getNewUsersOptimized CACHE_KEYS.dashboard.users userQueries
  /\ hasMoreMeansNextPage getNewsletterSubscribersOptimized
                          CACHE_KEYS.dashboard.newsletter newsletterQueries
  /\ hasMoreMeansNextPage getFormSubmissionsOptimized CACHE_KEYS.dashboard.forms
                          formQueries.
Proof.
  repeat apply conj.
  - apply (pagerOf_hasMore _ _ _ _ _ _ _ (quotesPage_pager status)).
  - apply (pagerOf_hasMore _ _ _ _ _ _ _ newUsersPage_pager).
  - apply (pagerOf_hasMore _ _ _ _ _ _ _ newsletterPage_pager).
  - apply (pagerOf_hasMore _ _ _ _ _ _ _ formsPage_pager).
Qed.

Lemma per_entity_pages_compose_witness :
  let w : World (PaginatedResult Quote) :=
    coldWorld configured quotesOnlyDatabase allHealthy in
  let r1 := getQuotesOptimized 0 0 1 None w in
  let r2 := getQuotesOptimized 0 1 1 None r1.2 in
  let r3 := getQuotesOptimized 0 0 2 None r2.2 in
  (data r1.1 ++ data r2.1)%list = data r3.1 /\ total r1.1 = total r2.1.
Proof.
  destruct (per_entity_pages_compose None) as (Hq & _).
  apply (Hq 0%Z 0%Z 0%Z 0 1 1 (coldWorld configured quotesOnlyDatabase allHealthy));
    [|reflexivity..].
  apply NoDup_cons. split; [|apply NoDup_singleton].
  intros Hin. apply list_elem_of_singleton in Hin. discriminate Hin.
Defined.

Lemma per_entity_hasMore_next_page_witness :
  let w : World (PaginatedResult Quote) :=
    coldWorld configured quotesOnlyDatabase allHealthy in
  let r1 := getQuotesOptimized 0 0 1 None w in
  let r2 := getQuotesOptimized 0 1 1 None r1.2 in
  hasMore r1.1 = true <-> data r2.1 <> [].
Proof.
  destruct (per_entity_hasMore_next_page None) as (Hq & _).
  apply (Hq 0%Z 0%Z 0 1 (coldWorld configured quotesOnlyDatabase allHealthy));
    [lia | reflexivity..].
Defined.

(** ** The feed *)

(** X16.  Whatever the tables hold, a feed that is computed consists of
    user registrations and quote requests: no event of the types [checkout],
    [newsletter_signup] or [form_submission] is ever in it, while [total]
    counts the rows of all five sources. *)
Theorem getRecentActivitiesOptimized_event_types (now : Z) (o l : nat)
  (w : World (PaginatedResult ActivityEvent)) :
  misses now (CACHE_KEYS.dashboard.activities o l) w ->
  let r := (getRecentActivitiesOptimized now o l w).1 in
  (forall e, e ∈ data r ->
     activity_type e = user_registration \/ activity_type e = quote_request)
  /\ (allAnswer w activityQueries = true ->
      total r = length (users (database w)) + length (quotes (database w))
                + length (formSubmissions (database w))
                + length (newsletterSubscribers (database w))
                + count (fun e => String.eqb (event_eventType e) "checkout_completed")
                        (analyticsEvents (database w))).
Proof.
  intros Hmiss. cbv zeta. unfold getRecentActivitiesOptimized.
  rewrite getCachedQuery_miss by exact Hmiss. cbn [fst].
  destruct (allAnswer w activityQueries) eqn:Hall.
  - rewrite recentActivities_success by exact Hall. cbn [data total]. split.
    + intros e He. unfold slice in He. apply subseteq_take, subseteq_drop in He.
      rewrite (sort_Permutation activity_timestamp) in He.
      apply elem_of_app in He as [He|He]; apply list_elem_of_In, in_map_iff in He
        as (x & <- & _); [by left | by right].
    + intros _. by rewrite !count_everyRow.
  - rewrite recentActivities_failure by exact Hall. cbn [data total emptyPage].
    split; [intros e He; by apply elem_of_nil in He | done].
Qed.

Lemma getRecentActivitiesOptimized_event_types_witness :
  let w : World (PaginatedResult ActivityEvent) :=
    coldWorld configured busyDatabase allHealthy in
  let r := (getRecentActivitiesOptimized 0 0 20 w).1 in
  (forall e, e ∈ data r ->
     activity_type e = user_registration \/ activity_type e = quote_request)
  /\ (allAnswer w activityQueries = true ->
      total r = length (users (database w)) + length (quotes (database w))
                + length (formSubmissions (database w))
                + length (newsletterSubscribers (database w))
                + count (fun e => String.eqb (event_eventType e) "checkout_completed")
                        (analyticsEvents (database w))).
Proof.
  apply (getRecentActivitiesOptimized_event_types 0 0 20
           (coldWorld configured busyDatabase allHealthy)).
  reflexivity.
Defined.

(** ** The statistics *)

Lemma activityStats_success weekAgo (w : World DashboardStats) :
  allAnswer w statsQueries = true ->
  let prisma := database w in
  activityStats weekAgo w
  = {| totalUsers := count everyRow (users prisma);
       newUsersThisWeek :=
         count (fun u => (weekAgo <=? user_createdAt u)%Z) (users prisma);
       totalQuotes := count everyRow (quotes prisma);
       pendingQuotes := count isPending (quotes prisma);
       totalNewsletterSubscribers :=
         count (fun n => String.eqb (sub_status n) "active")
               (newsletterSubscribers prisma);
       totalFormSubmissions := count everyRow (formSubmissions prisma);
       totalCheckouts :=
         count (fun e => String.eqb (event_eventType e) "checkout_completed")
               (analyticsEvents prisma) |}.
Proof.
  intros Hall. unfold activityStats, statsCounts.
  rewrite !(allAnswer_elem w statsQueries) by (done || set_solver). reflexivity.
Qed.

Lemma activityStats_failure weekAgo (w : World DashboardStats) :
  allAnswer w statsQueries = false ->
  activityStats weekAgo w = mkDashboardStats 0 0 0 0 0 0 0.
Proof.
  intros Hbad. unfold activityStats. apply tryCatch_rejected. unfold statsCounts.
  rewrite !isFulfilled_withTimeout_bothP, !isFulfilled_withTimeout_issue_healthy.
  unfold allAnswer, statsQueries in Hbad. simpl in Hbad. health_cases; done.
Qed.

(** X17.  The statistics that are computed never report more new users than
    users, more pending quotes than quotes, and no total exceeds the size of
    its table: users, quotes, active subscribers among the subscribers, form
    submissions, checkouts among the analytics events; whether the counts
    answered or not. *)
Theorem getActivityStatsOptimized_bounds (now weekAgo : Z) (w : World DashboardStats) :
  misses now CACHE_KEYS.dashboard.stats w ->
  let s := (getActivityStatsOptimized now weekAgo w).1 in
  newUsersThisWeek s <= totalUsers s
  /\ pendingQuotes s <= totalQuotes s
  /\ totalUsers s <= length (users (database w))
  /\ totalQuotes s <= length (quotes (database w))
  /\ totalNewsletterSubscribers s <= length (newsletterSubscribers (database w))
  /\ totalFormSubmissions s <= length (formSubmissions (database w))
  /\ totalCheckouts s <= length (analyticsEvents (database w)).
Proof.
  intros Hmiss. cbv zeta. unfold getActivityStatsOptimized.
  rewrite getCachedQuery_miss by exact Hmiss. cbn [fst].
  destruct (allAnswer w statsQueries) eqn:Hall.
  - rewrite activityStats_success by exact Hall. simpl.
    rewrite !count_everyRow. unfold count. repeat split; apply filter_length_le || lia.
  - rewrite activityStats_failure by exact Hall. simpl. lia.
Qed.

Lemma getActivityStatsOptimized_bounds_witness :
  let w : World DashboardStats := coldWorld configured busyDatabase allHealthy in
  let s := (getActivityStatsOptimized 5000 1200 w).1 in
  newUsersThisWeek s <= totalUsers s
  /\ pendingQuotes s <= totalQuotes s
  /\ totalUsers s <= length (users (database w))
  /\ totalQuotes s <= length (quotes (database w))
  /\ totalNewsletterSubscribers s <= length (newsletterSubscribers (database w))
  /\ totalFormSubmissions s <= length (formSubmissions (database w))
  /\ totalCheckouts s <= length (analyticsEvents (database w)).
Proof.
  apply (getActivityStatsOptimized_bounds 5000 1200
           (coldWorld configured busyDatabase allHealthy)).
  reflexivity.
Defined.

(** X18.  When one of the counts of [getActivityStatsOptimized] throws or
    times out, the statistics that are computed are all zero, and so they
    are when every count answers on empty tables: the caller cannot tell a
    failure from an empty shop. *)
Theorem getActivityStatsOptimized_failure (now weekAgo : Z) (w : World DashboardStats) :
  misses now CACHE_KEYS.dashboard.stats w ->
  allAnswer w statsQueries = false \/ database w = emptyDatabase ->
  (getActivityStatsOptimized now weekAgo w).1 = mkDashboardStats 0 0 0 0 0 0 0.
Proof.
  intros Hmiss Hcase. unfold getActivityStatsOptimized.
  rewrite getCachedQuery_miss by exact Hmiss. cbn [fst].
  destruct (allAnswer w statsQueries) eqn:Hall; [|by apply activityStats_failure].
  destruct Hcase as [?|Hdb]; [done|].
  rewrite activityStats_success by exact Hall. by rewrite Hdb.
Qed.

Lemma getActivityStatsOptimized_failure_witness :
  (getActivityStatsOptimized 5000 1200
     (coldWorld configured busyDatabase (onlyFault QuoteCount Hangs))).1
  = mkDashboardStats 0 0 0 0 0 0 0.
Proof.
  apply (getActivityStatsOptimized_failure 5000 1200
           (coldWorld configured busyDatabase (onlyFault QuoteCount Hangs))).
  - reflexivity.
  - left. reflexivity.
Defined.

(** ** The mutation *)

Lemma isFulfilled_updateStatus (id status : string) (table : list FormSubmission) :
  isFulfilled (updateStatus id status table)
  = existsb (fun f => String.eqb (form_id f) id) table.
Proof.
  induction table as [|f table IH]; simpl; [done|].
  destruct (String.eqb (form_id f) id); simpl; [done|].
  rewrite <- IH. by destruct (updateStatus id status table).
Qed.

(** The first record with the id gets the status; nothing else changes. *)
Lemma updateStatus_Fulfilled (id status : string) (table table' : list FormSubmission)
  (updated : FormSubmission) :
  updateStatus id status table = Fulfilled (updated, table') ->
  exists before f after,
    table = (before ++ f :: after)%list
    /\ Forall (fun f' => form_id f' <> id) before
    /\ form_id f = id
    /\ updated = mkFormSubmission id (form_formType f) status (form_submittedAt f)
    /\ table' = (before ++ updated :: after)%list.
Proof.
  revert table'. induction table as [|f table IH]; intros table' Hup; [discriminate|].
  simpl in Hup. destruct (String.eqb_spec (form_id f) id) as [Hid|Hid].
  - injection Hup as <- <-. exists [], f, table. rewrite Hid. by repeat split.
  - destruct (updateStatus id status table) as [[u t]|e]; [|discriminate].
    simpl in Hup. injection Hup as -> <-.
    destruct (IH t eq_refl) as (before & f0 & after & -> & Hb & Hf & Hu & ->).
    exists (f :: before), f0, after. repeat split; try done. by constructor.
Qed.

(** X19.  [updateFormSubmissionStatus] succeeds exactly when the update call
    answers in time and some submission has the id.  When it fails, the
    error is rethrown before the invalidation: the cache is as it was.  The
    tables are as they were too when the failure is no timeout, that is
    when the update threw or found no submission with the id; of an update
    that was still pending when the timer fired nothing is said, for the
    race does not cancel it. *)
Theorem updateFormSubmissionStatus_failure {V} (w : World V) (now : Z) (id status : string) :
  let r := updateFormSubmissionStatus now id status w in
  isFulfilled r.1
  = healthy (faults w FormSubmissionUpdate)
    && existsb (fun f => String.eqb (form_id f) id) (formSubmissions (database w))
  /\ (if isFulfilled r.1 then True
      else server r.2 = server w
           /\ env r.2 = env w
           /\ (faults w FormSubmissionUpdate = Hangs \/ database r.2 = database w)).
Proof.
  cbv zeta. unfold updateFormSubmissionStatus.
  pose proof (isFulfilled_updateStatus id status (formSubmissions (database w))) as Hex.
  destruct (faults w FormSubmissionUpdate); simpl.
  - destruct (updateStatus id status (formSubmissions (database w))) as [[u t]|e];
      simpl in *; rewrite <- Hex; [done|]. repeat split; by right.
  - repeat split; by right.
  - repeat split; by left.
Qed.

(** X20.  When [updateFormSubmissionStatus] succeeds, the record it returns
    is the first submission with the id, with the new status and its other
    fields as they were; that record has taken the place of the old one in
    the table, and no other record and no other table has changed. *)
Theorem updateFormSubmissionStatus_success {V} (w : World V) (now : Z)
  (id status : string) (updated : FormSubmission) :
  (updateFormSubmissionStatus now id status w).1 = Fulfilled updated ->
  let w' := (updateFormSubmissionStatus now id status w).2 in
  (exists before f after,
     formSubmissions (database w) = (before ++ f :: after)%list
     /\ Forall (fun f' => form_id f' <> id) before
     /\ form_id f = id
     /\ updated = mkFormSubmission id (form_formType f) status (form_submittedAt f)
     /\ formSubmissions (database w') = (before ++ updated :: after)%list)
  /\ users (database w') = users (database w)
  /\ quotes (database w') = quotes (database w)
  /\ newsletterSubscribers (database w') = newsletterSubscribers (database w)
  /\ analyticsEvents (database w') = analyticsEvents (database w).
Proof.
  unfold updateFormSubmissionStatus.
  destruct (withTimeout _ _) as [[u table']|e] eqn:Hcall; [|discriminate].
  simpl. intros [= ->].
  assert (updateStatus id status (formSubmissions (database w))
          = Fulfilled (updated, table')) as Hup.
  { destruct (faults w FormSubmissionUpdate); simpl in Hcall; [done | discriminate..]. }
  destruct (invalidatePattern_rest now "dashboard:forms"
              (withDatabase w (mkDatabase (users (database w)) (quotes (database w))
                                          table' (newsletterSubscribers (database w))
                                          (analyticsEvents (database w)))))
    as (_ & Hd & _).
  unfold invalidateDashboardCache. simpl. rewrite Hd. simpl.
  split; [by apply updateStatus_Fulfilled | done].
Qed.

Lemma updateFormSubmissionStatus_success_witness :
  let w : World (PaginatedResult FormSubmission) :=
    coldWorld configured formOnlyDatabase allHealthy in
  let updated := mkFormSubmission "form_1" "contact" "read" 3000 in
  let w' := (updateFormSubmissionStatus 1 "form_1" "read" w).2 in
  (exists before f after,
     formSubmissions (database w) = (before ++ f :: after)%list
     /\ Forall (fun f' => form_id f' <> "form_1") before
     /\ form_id f = "form_1"
     /\ updated = mkFormSubmission "form_1" (form_formType f) "read" (form_submittedAt f)
     /\ formSubmissions (database w') = (before ++ updated :: after)%list)
  /\ users (database w') = users (database w)
  /\ quotes (database w') = quotes (database w)
  /\ newsletterSubscribers (database w') = newsletterSubscribers (database w)
  /\ analyticsEvents (database w') = analyticsEvents (database w).
Proof.
  apply (updateFormSubmissionStatus_success
           (coldWorld configured formOnlyDatabase allHealthy) 1 "form_1" "read"
           (mkFormSubmission "form_1" "contact" "read" 3000)).
  reflexivity.
Defined.

(** ** The handler, once past the check *)

Section RouteFacts.
Variable W : Type.
Variable activitiesOf : nat -> nat -> W -> outcome (PaginatedResult ActivityEvent) * W.
Variable statsOf : W -> outcome DashboardStats * W.
Variable quotesOf : nat -> nat -> W -> outcome (PaginatedResult Quote) * W.
Variable newUsersOf : nat -> nat -> W -> outcome (PaginatedResult User) * W.
Variable newsletterOf : nat -> nat -> W -> outcome (PaginatedResult NewsletterSubscriber) * W.
Variable formsOf : nat -> nat -> W -> outcome (PaginatedResult FormSubmission) * W.
Variable etagOf : ResponseData -> string.

Local Abbreviation handler :=
  (GET W activitiesOf statsOf quotesOf newUsersOf newsletterOf formsOf etagOf).

(** Runs the six fetchers of the handler one after the other. *)
Ltac run_fetchers :=
  repeat match goal with
         | |- context [let '(_, _) := ?call in _] =>
             let r := fresh "r" in let w := fresh "w" in destruct call as [r w]
         end.

(** X21.  A page below 0 counts as page 0, a limit below 1 as 1 and a limit
    above 100 as 100: the handler answers a request as it answers the same
    request with page and limit brought into range. *)
Theorem GET_clamps_page_and_limit (timestamp : string) (elapsed : Z)
  (request : Request) (w : W) :
  handler timestamp elapsed (clamped request) w = handler timestamp elapsed request w.
Proof.
  unfold GET, clamped, unauthorized. simpl.
  replace (Z.max 0 (Z.max 0 (pageParam request))) with (Z.max 0 (pageParam request))
    by lia.
  replace (Z.min 100 (Z.max 1 (Z.min 100 (Z.max 1 (limitParam request)))))
    with (Z.min 100 (Z.max 1 (limitParam request))) by lia.
  reflexivity.
Qed.

(** X22.  Past the authorization check, the answer to a conditional request
    is the 200 answer of the same request without [If-None-Match], unless
    the header equals the ETag of that answer: then it is a 304 without body
    that carries the same ETag.  The six fetchers have run in both cases:
    the state is the same. *)
Theorem GET_conditional (timestamp : string) (elapsed : Z) (request : Request) (w : W) :
  unauthorized request = false ->
  let full := handler timestamp elapsed (unconditional request) w in
  let cond := handler timestamp elapsed request w in
  cond.2 = full.2
  /\ exists responseData rest,
       full.1 = mkResponse 200 (DataBody responseData)
                           (("ETag", etagOf responseData) :: rest)
       /\ cond.1 = if bool_decide (ifNoneMatch request = Some (etagOf responseData))
                   then mkResponse 304 NoBody
                          [("ETag", etagOf responseData);
                           ("Cache-Control",
                            "private, max-age=10, stale-while-revalidate=30")]
                   else full.1.
Proof.
  intros Hauth. cbv zeta. unfold GET.
  assert (unauthorized (unconditional request) = false) as -> by exact Hauth.
  rewrite Hauth. cbn [pageParam limitParam unconditional ifNoneMatch].
  run_fetchers.
  rewrite (bool_decide_eq_false_2 (None = Some _)) by discriminate. cbn [fst snd].
  split; [by case_bool_decide|].
  eexists _, _. split; [reflexivity|]. by case_bool_decide.
Qed.

(** X23.  Fetchers that reject do not make the handler fail: past the
    check, and without [If-None-Match], the answer is a 200 whose statistics
    are all zero, whose five lists are empty, whose totals are 0 and whose
    [hasMore] are false, with the timestamp and the response time of the
    handler. *)
Theorem GET_survives_rejections (timestamp : string) (elapsed : Z)
  (request : Request) (w : W) :
  (forall o l w', isFulfilled (activitiesOf o l w').1 = false) ->
  (forall w', isFulfilled (statsOf w').1 = false) ->
  (forall o l w', isFulfilled (quotesOf o l w').1 = false) ->
  (forall o l w', isFulfilled (newUsersOf o l w').1 = false) ->
  (forall o l w', isFulfilled (newsletterOf o l w').1 = false) ->
  (forall o l w', isFulfilled (formsOf o l w').1 = false) ->
  unauthorized request = false ->
  ifNoneMatch request = None ->
  status (handler timestamp elapsed request w).1 = 200
  /\ exists responseData,
       body (handler timestamp elapsed request w).1 = DataBody responseData
       /\ allFellBack responseData
       /\ resp_timestamp responseData = timestamp
       /\ resp_responseTime responseData = pretty elapsed +:+ "ms".
Proof.
  intros Ha Hs Hq Hu Hn Hf Hauth Hcond.
  unfold GET. rewrite Hauth, Hcond.
  set (limit := Z.to_nat (Z.min 100 (Z.max 1 (limitParam request)))).
  set (offset := Z.to_nat (Z.max 0 (pageParam request)) * limit).
  pose proof (Ha offset limit w) as Ha'.
  destruct (activitiesOf offset limit w) as [[?|?] w1]; [discriminate Ha'|].
  pose proof (Hs w1) as Hs'.
  destruct (statsOf w1) as [[?|?] w2]; [discriminate Hs'|].
  pose proof (Hq offset limit w2) as Hq'.
  destruct (quotesOf offset limit w2) as [[?|?] w3]; [discriminate Hq'|].
  pose proof (Hu offset limit w3) as Hu'.
  destruct (newUsersOf offset limit w3) as [[?|?] w4]; [discriminate Hu'|].
  pose proof (Hn offset limit w4) as Hn'.
  destruct (newsletterOf offset limit w4) as [[?|?] w5]; [discriminate Hn'|].
  pose proof (Hf offset limit w5) as Hf'.
  destruct (formsOf offset limit w5) as [[?|?] w6]; [discriminate Hf'|].
  rewrite (bool_decide_eq_false_2 (None = Some _)) by discriminate.
  split; [reflexivity|]. eexists. split; [reflexivity|].
  unfold allFellBack, fellBack. cbn. by repeat split.
Qed.

End RouteFacts.

Lemma GET_conditional_witness :
  let request :=
    mkRequest "admin.example.com" 0 20 (Some "Bearer x")
              (Some "d41d8cd98f00b204e9800998ecf8427e") in
  let full := probedGET "2025-12-20T00:00:00.000Z" 3 (unconditional request) 0 in
  let cond := probedGET "2025-12-20T00:00:00.000Z" 3 request 0 in
  cond.2 = full.2
  /\ exists responseData rest,
       full.1 = mkResponse 200 (DataBody responseData)
                           (("ETag", "d41d8cd98f00b204e9800998ecf8427e") :: rest)
       /\ cond.1 = if bool_decide (ifNoneMatch request
                                   = Some "d41d8cd98f00b204e9800998ecf8427e")
                   then mkResponse 304 NoBody
                          [("ETag", "d41d8cd98f00b204e9800998ecf8427e");
                           ("Cache-Control",
                            "private, max-age=10, stale-while-revalidate=30")]
                   else full.1.
Proof.
  apply (GET_conditional nat
           (fun o l => probe (emptyPage o l))
           (probe (mkDashboardStats 0 0 0 0 0 0 0))
           (fun o l => probe (emptyPage o l))
           (fun o l => probe (emptyPage o l))
           (fun o l => probe (emptyPage o l))
           (fun o l => probe (emptyPage o l))
           (fun _ => "d41d8cd98f00b204e9800998ecf8427e")
           "2025-12-20T00:00:00.000Z" 3
           (mkRequest "admin.example.com" 0 20 (Some "Bearer x")
                      (Some "d41d8cd98f00b204e9800998ecf8427e")) 0).
  reflexivity.
Defined.

Lemma GET_survives_rejections_witness :
  let request := mkRequest "localhost" 2 500 None None in
  status (failingGET "2025-12-20T00:00:00.000Z" 3 request 0).1 = 200
  /\ exists responseData,
       body (failingGET "2025-12-20T00:00:00.000Z" 3 request 0).1 = DataBody responseData
       /\ allFellBack responseData
       /\ resp_timestamp responseData = "2025-12-20T00:00:00.000Z"
       /\ resp_responseTime responseData = pretty 3%Z +:+ "ms".
Proof.
  apply (GET_survives_rejections nat
           (fun _ _ => failing "activities")
           (failing "stats")
           (fun _ _ => failing "quotes")
           (fun _ _ => failing "users")
           (fun _ _ => failing "newsletter")
           (fun _ _ => failing "forms")
           (fun _ => "d41d8cd98f00b204e9800998ecf8427e")
           "2025-12-20T00:00:00.000Z" 3 (mkRequest "localhost" 2 500 None None) 0);
    reflexivity.
Defined.

(** ** The rate limiter *)

(** Calls inside a running window: the call number [i] is allowed while the
    count stays under the limit. *)
Lemma checkEach_running (times : list Z) (email : string) (limit windowMs : Z)
  (m : gmap string RateRecord) (c reset : Z) :
  m !! email = Some (mkRateRecord c reset) ->
  Forall (fun t => (t <= reset)%Z) times ->
  forall i ok, (checkEach times email limit windowMs m).1 !! i = Some ok ->
               ok = (c + Z.of_nat i <? limit)%Z.
Proof.
  revert m c. induction times as [|t times IH]; intros m c Hm Hin i ok Hi; [done|].
  apply Forall_cons in Hin as [Ht Hin]. simpl in Hi.
  unfold checkEmailRateLimit in Hi. rewrite Hm in Hi. simpl in Hi.
  destruct (Z.ltb_spec reset t); [lia|].
  destruct (Z.leb_spec limit c) as [Hfull|Hroom].
  - destruct (checkEach times email limit windowMs m) as [oks m2] eqn:Hrest.
    destruct i as [|i]; simpl in Hi.
    + injection Hi as <-. symmetry. apply Z.ltb_ge. lia.
    + specialize (IH m c Hm Hin i ok). rewrite Hrest in IH. rewrite (IH Hi).
      destruct (Z.ltb_spec (c + Z.of_nat i) limit), (Z.ltb_spec (c + Z.of_nat (S i)) limit);
        try done; lia.
  - destruct (checkEach times email limit windowMs
                (<[email := mkRateRecord (c + 1) reset]> m)) as [oks m2] eqn:Hrest.
    destruct i as [|i]; simpl in Hi.
    + injection Hi as <-. symmetry. apply Z.ltb_lt. lia.
    + specialize (IH (<[email := mkRateRecord (c + 1) reset]> m) (c + 1)%Z
                     (lookup_insert_eq _ _ _) Hin i ok).
      rewrite Hrest in IH. rewrite (IH Hi). f_equal. lia.
Qed.

(** X24.  For an address without a record, or whose window has lapsed, the
    call that opens the window is allowed whatever the limit, and of the
    calls that follow before the window closes, the one with number [i]
    (the opening call being number 0) is allowed exactly when [i < limit]:
    no more than [max(1, limit)] calls get through in one window. *)
Theorem checkEmailRateLimit_window (t0 : Z) (times : list Z) (email : string)
  (limit windowMs : Z) (m : gmap string RateRecord) :
  (m !! email = None
   \/ exists record, m !! email = Some record /\ (rate_resetTime record < t0)%Z) ->
  Forall (fun t => (t <= t0 + windowMs)%Z) times ->
  forall i ok, (checkEach (t0 :: times) email limit windowMs m).1 !! i = Some ok ->
               ok = (Z.of_nat i <? Z.max 1 limit)%Z.
Proof.
  intros Hnew Hin i ok Hi. simpl in Hi.
  assert (checkEmailRateLimit t0 email limit windowMs m
          = (true, <[email := mkRateRecord 1 (t0 + windowMs)]> m)) as Hopen.
  { unfold checkEmailRateLimit. destruct Hnew as [->|(record & -> & Hlapsed)]; [done|].
    by destruct (Z.ltb_spec (rate_resetTime record) t0); [|lia]. }
  rewrite Hopen in Hi.
  destruct (checkEach times email limit windowMs
              (<[email := mkRateRecord 1 (t0 + windowMs)]> m)) as [oks m2] eqn:Hrest.
  destruct i as [|i]; simpl in Hi.
  - injection Hi as <-. symmetry. apply Z.ltb_lt. lia.
  - pose proof (checkEach_running times email limit windowMs
                  (<[email := mkRateRecord 1 (t0 + windowMs)]> m) 1 (t0 + windowMs)
                  (lookup_insert_eq _ _ _) Hin i ok) as Hrun.
    rewrite Hrest in Hrun. rewrite (Hrun Hi).
    destruct (Z.ltb_spec (1 + Z.of_nat i) limit), (Z.ltb_spec (Z.of_nat (S i)) (Z.max 1 limit));
      try done; lia.
Qed.

Lemma checkEmailRateLimit_window_witness :
  (checkEach [0; 10; 20; 30]%Z "ann@example.com" 2 3600000 ∅).1
  = [true; true; false; false]
  /\ forall i ok,
       (checkEach [0; 10; 20; 30]%Z "ann@example.com" 2 3600000 ∅).1 !! i = Some ok ->
       ok = (Z.of_nat i <? Z.max 1 2)%Z.
Proof.
  split; [reflexivity|].
  apply (checkEmailRateLimit_window 0 [10; 20; 30]%Z "ann@example.com" 2 3600000 ∅).
  - left. reflexivity.
  - repeat constructor; lia.
Defined.

(** X25.  A call of [checkEmailRateLimit] for one address leaves the record
    of every other address as it is, and a call that is refused changes
    nothing at all. *)
Theorem checkEmailRateLimit_frame (now : Z) (email other : string) (limit windowMs : Z)
  (m : gmap string RateRecord) :
  let r := checkEmailRateLimit now email limit windowMs m in
  r.2 !! other = (if decide (other = email) then r.2 !! email else m !! other)
  /\ (if r.1 then True else r.2 = m).
Proof.
  cbv zeta. unfold checkEmailRateLimit.
  destruct (m !! email) as [record|] eqn:Hm; repeat case_match; simpl;
    split; try done; case_decide; subst; try done; by rewrite lookup_insert_ne.
Qed.

(** X26.  [getEmailRateLimitStatus] agrees with the limiter at its default
    limit of 5: it reports [limited] exactly when the next call of
    [checkEmailRateLimit(email)] would be refused, and then, and only then,
    it reports that 0 calls remain. *)
Theorem getEmailRateLimitStatus_agrees (now : Z) (email : string) (windowMs : Z)
  (m : gmap string RateRecord) :
  let s := getEmailRateLimitStatus now email m in
  limited s = negb (checkEmailRateLimit now email 5 windowMs m).1
  /\ (limited s = true <-> remaining s = 0%Z).
Proof.
  cbv zeta. unfold getEmailRateLimitStatus, checkEmailRateLimit.
  destruct (m !! email) as [record|]; [|by split].
  destruct (rate_resetTime record <? now)%Z; [by split|].
  destruct (Z.leb_spec 5 (rate_count record)); simpl; (split; [done|]); split; try done; lia.
Qed.
